(** * sales_report.py: spreadsheet of sales to summaries and a report

    A shallow embedding of [src/sales_report.py].  The data frame is an
    ordered list of labelled columns, each column a list of cells.  The
    functions of the script are translated block by block; the line numbers
    in the comments are those of the script.

    Numbers.  The script computes with binary64 floats.  Here a number is an
    exact rational ([Qc]); rounding is not modelled, a NaN is the absence of
    a number, and a cell that reads as an infinity is outside the model.

    Library calls.  What pandas and Python decide about the *text* of a cell
    or of a header (how a string reads as a number or as a date, how a
    number prints, how a header is trimmed and lower-cased) is not code of
    the script: it is a parameter, the class [Externals].  The theorems
    hold for every instance; [sample_externals] is one that runs.  The
    conversion of the date column (line 50) gets the column as a whole:
    [to_datetime] converts it cell by cell, and the theorems on when the
    conversion fails, or on what follows it, take the conversion as a
    parameter.

    Labels.  A frame is taken with distinct labels; [getcol] reads the first
    column of a label and [setcol] overwrites it, which is what pandas does
    then. *)

From Stdlib Require Import String Ascii List Bool ZArith QArith Qcanon Lia.
From Stdlib Require Import Qround DecimalString Permutation Sorted.
Import ListNotations.
Open Scope string_scope.

(* ------------------------------------------------------------------ *)
(** ** Text *)

(** Python's [needle in s] on strings. *)
Fixpoint contains (needle s : string) : bool :=
  String.prefix needle s
  || match s with
     | EmptyString => false
     | String _ s' => contains needle s'
     end.

(** [x in cols] for a list of labels. *)
Definition mem (x : string) (cols : list string) : bool :=
  existsb (String.eqb x) cols.

(* ------------------------------------------------------------------ *)
(** ** Cells, columns, frames *)

(** A calendar date; the time of day plays no part in the script. *)
Record date := mkdate { year : Z; month : Z; day : Z }.

(** A scalar of the sheet.  [NA] stands for an empty cell and for what
    pandas writes NaN, None or NaT. *)
Inductive cell :=
| Text (s : string)
| Number (q : Qc)
| Date (d : date)
| NA.

Definition series := list cell.

(** A DataFrame: its columns in table order. *)
Definition frame := list (string * series).

Definition columns (df : frame) : list string := map fst df.

(** [df[c]] read. *)
Fixpoint getcol (df : frame) (c : string) : option series :=
  match df with
  | [] => None
  | (c', s) :: rest => if String.eqb c' c then Some s else getcol rest c
  end.

(** [df[c] = s]: overwrite in place, or append a new last column. *)
Fixpoint setcol (df : frame) (c : string) (s : series) : frame :=
  match df with
  | [] => [(c, s)]
  | (c', s') :: rest =>
      if String.eqb c' c then (c, s) :: rest else (c', s') :: setcol rest c s
  end.

(** [df.columns = names] (line 45), position by position. *)
Definition rename (df : frame) (f : string -> string) : frame :=
  map (fun cs => (f (fst cs), snd cs)) df.

(* ------------------------------------------------------------------ *)
(** ** Errors *)

Inductive error :=
| NoDateColumn            (* ValueError, line 52 *)
| NoSalesColumns          (* ValueError, line 72 *)
| NoProductColumn         (* ValueError, line 79 *)
| DateParseError          (* raised inside pd.to_datetime, line 50 or 97 *)
| KeyError (c : string)   (* df[c] on a label the frame does not have *)
| TypeError (c : string)  (* a column whose cells the reduction cannot use *)
| FileError.              (* pd.read_excel cannot read the path *)

(** The two kinds of failure the specification names. *)
Definition SchemaError (e : error) : Prop :=
  e = NoDateColumn \/ e = NoSalesColumns \/ e = NoProductColumn.


Inductive result (A : Type) :=
| Ok (a : A)
| Raise (e : error).
Arguments Ok {A} a.
Arguments Raise {A} e.

Definition bind {A B} (r : result A) (k : A -> result B) : result B :=
  match r with
  | Ok a => k a
  | Raise e => Raise e
  end.

Notation "x <- r ;; k" := (bind r (fun x => k))
  (at level 61, r at next level, right associativity).

(** [df[c]] where a missing label is an exception. *)
Definition lookup (df : frame) (c : string) : result series :=
  match getcol df c with
  | Some s => Ok s
  | None => Raise (KeyError c)
  end.

(* ------------------------------------------------------------------ *)
(** ** Sorting and grouping *)

Definition Qc_ltb (x y : Qc) : bool :=
  match (x ?= y)%Qc with Lt => true | _ => false end.

Definition date_ltb (a b : date) : bool :=
  (year a <? year b)%Z
  || ((year a =? year b)%Z
      && ((month a <? month b)%Z
          || ((month a =? month b)%Z && (day a <? day b)%Z))).

Definition date_eqb (a b : date) : bool :=
  (year a =? year b)%Z && (month a =? month b)%Z && (day a =? day b)%Z.

(** Group keys of the product grouping, compared as Python compares
    strings (byte-wise on UTF-8 is code point order); the missing key sorts
    last. *)
Definition key_ltb (a b : option string) : bool :=
  match a, b with
  | Some x, Some y => String.ltb x y
  | Some _, None => true
  | None, _ => false
  end.

Definition key_eqb (a b : option string) : bool :=
  match a, b with
  | Some x, Some y => String.eqb x y
  | None, None => true
  | _, _ => false
  end.

Section StableSort.
Context {A : Type}.
(** [before y x]: [y] has to come before [x]. *)
Variable before : A -> A -> bool.

Fixpoint insert (x : A) (l : list A) : list A :=
  match l with
  | [] => [x]
  | y :: l' => if before y x then y :: insert x l' else x :: y :: l'
  end.

(** Modelled from the spec: pandas' [sort_values] with the sort the
    specification calls stable; rows that compare equal keep the order
    they had.  The script passes no [kind], and pandas' default sort is
    not stable: what the theorems take from this definition is that the
    result is a permutation of the rows in the required order, never the
    order among rows that compare equal. *)
Definition stable_sort (l : list A) : list A := fold_right insert [] l.
End StableSort.

(** [Series.sum()]: NaN is skipped. *)
Definition sum_skipna (l : list (option Qc)) : Qc :=
fold_right (fun x acc => match x with Some q => q + acc | None => acc end)%Qc
           0%Qc l.

Section GroupBy.
Context {K : Type}.
Variable kltb : K -> K -> bool.
Variable keqb : K -> K -> bool.

Fixpoint insert_key (k : K) (l : list K) : list K :=
  match l with
  | [] => [k]
  | k' :: l' =>
      if keqb k k' then l
      else if kltb k k' then k :: l
      else k' :: insert_key k l'
  end.

(** The distinct keys, ascending: groupby sorts its group keys. *)
Definition sorted_keys (l : list K) : list K := fold_right insert_key [] l.

Definition group_sum (k : K) (rows : list (K * option Qc)) : Qc :=
  sum_skipna (map snd (filter (fun r => keqb (fst r) k) rows)).

(** [df.groupby(key)[value].sum().reset_index()]. *)
Definition groupby_sum (rows : list (K * option Qc)) : list (K * Qc) :=
  map (fun k => (k, group_sum k rows)) (sorted_keys (map fst rows)).
End GroupBy.

(** Rows whose key is missing leave the grouping. *)
Fixpoint dropna {K V} (rows : list (option K * V)) : list (K * V) :=
  match rows with
  | [] => []
  | (Some k, v) :: rest => (k, v) :: dropna rest
  | (None, _) :: rest => dropna rest
  end.

(* ------------------------------------------------------------------ *)
(** ** What the libraries decide *)

Class Externals := {
  (** [c.strip().lower()] on a header. *)
  header_norm : string -> string;
  (** pd.to_numeric on a text cell; [None]: it does not read as a number.
      A text that reads as an infinity has no value here. *)
  numeric_of_text : string -> option Qc;
  (** pd.to_numeric on a date cell. *)
  numeric_of_date : date -> option Qc;
  (** pd.to_datetime on a text cell: [None] it raises, [Some None] it is
      NaT, [Some (Some d)] it is the date [d]. *)
  datetime_of_text : string -> option (option date);
  (** pd.to_datetime on a number. *)
  datetime_of_number : Qc -> option (option date);
  (** [str] of a number and of a date, for [astype(str)]. *)
  str_of_number : Qc -> string;
  str_of_date : date -> string;
  (** [astype(str)] on a missing cell: [Some t], it becomes the text [t]
      ('nan' in pandas before version 3); [None], it stays missing. *)
  str_of_missing : option string
}.

Section Script.
Context {E : Externals}.

(** *** pd.to_numeric(..., errors='coerce'), fillna, product of columns *)

Definition to_numeric_scalar (c : cell) : option Qc :=
  match c with
  | Number q => Some q
  | Text s => numeric_of_text s
  | Date d => numeric_of_date d
  | NA => None
  end.

(** A float64 column: [None] is NaN. *)
Definition to_numeric (s : series) : list (option Qc) :=
  map to_numeric_scalar s.

Definition fillna (v : Qc) (s : list (option Qc)) : list (option Qc) :=
  map (fun x => match x with Some q => Some q | None => Some v end) s.

Definition mul_scalar (x y : option Qc) : option Qc :=
  match x, y with
  | Some a, Some b => Some (a * b)%Qc
  | _, _ => None
  end.

(** [a * b] on two columns of one frame, row by row, as the exact product.
    The script multiplies int64 columns (which wrap around) or float64
    columns (which round, and know infinities); the exact product is the
    product of the script where a factor is 0 and for whole numbers whose
    product stays within 2^53.  The theorems rely on it there only. *)
Definition series_mul (a b : list (option Qc)) : list (option Qc) :=
  map (fun xy => mul_scalar (fst xy) (snd xy)) (combine a b).

(** A float64 column stored back into the frame. *)
Definition float_series (s : list (option Qc)) : series :=
  map (fun x => match x with Some q => Number q | None => NA end) s.

(** *** pd.to_datetime *)

Definition to_datetime_scalar (c : cell) : option (option date) :=
  match c with
  | Date d => Some (Some d)
  | NA => Some None
  | Text s => datetime_of_text s
  | Number q => datetime_of_number q
  end.

(** One cell that cannot be read makes the whole call raise.  The call
    is modelled cell by cell; pandas converts the column as a whole (one
    format for its texts, dates within its range), so it may also raise
    on a column whose cells all read when taken alone. *)
Fixpoint to_datetime (s : series) : result (list (option date)) :=
  match s with
  | [] => Ok []
  | c :: rest =>
      match to_datetime_scalar c with
      | None => Raise DateParseError
      | Some d => ds <- to_datetime rest ;; Ok (d :: ds)
      end
  end.

(** A datetime64 column stored back into the frame. *)
Definition datetime_series (s : list (option date)) : series :=
  map (fun x => match x with Some d => Date d | None => NA end) s.

(** *** astype(str) *)

(** The text of one cell; [None]: the cell stays missing. *)
Definition str_scalar (c : cell) : option string :=
  match c with
  | Text s => Some s
  | Number q => Some (str_of_number q)
  | Date d => Some (str_of_date d)
  | NA => str_of_missing
  end.

Definition astype_str (s : series) : series :=
  map (fun c => match str_scalar c with Some t => Text t | None => NA end) s.

(** *** read_sales_excel (lines 37-81) *)

Definition is_date_like (c : string) : bool :=
  contains "date" c || contains "data" c.

Definition is_qty_like (c : string) : bool :=
  contains "qty" c || contains "quantity" c || contains "quantidade" c.

Definition is_price_like (c : string) : bool :=
  contains "price" c || contains "preco" c || contains "valor_unit" c.

Definition is_other_total (c : string) : bool :=
  mem c ["amount"; "valor_total"; "total"].

Definition is_product_like (c : string) : bool :=
  contains "product" c || contains "produto" c || contains "item" c.

(** Line 45. *)
Definition normalize_headers (sheet : frame) : frame :=
  rename sheet header_norm.

(** Lines 48-52; [conv] is the call of line 50, which gets the whole
    column. *)
Definition ensure_date_with (conv : series -> result (list (option date)))
    (df : frame) : result frame :=
  let date_cols := filter is_date_like (columns df) in
  match date_cols with
  | c :: _ =>
      s <- lookup df c ;;
      d <- conv s ;;
      Ok (setcol df "date" (datetime_series d))
  | [] => Raise NoDateColumn
  end.

Definition ensure_date (df : frame) : result frame :=
  ensure_date_with to_datetime df.

(** [pd.to_numeric(df[c], errors='coerce').fillna(0)], lines 57, 63, 64, 70. *)
Definition coerced (df : frame) (c : string) : result (list (option Qc)) :=
  s <- lookup df c ;; Ok (fillna 0%Qc (to_numeric s)).

(** Lines 55-72. *)
Definition detect_sales (df : frame) : result frame :=
  if mem "sales" (columns df) || mem "valor" (columns df) then
    let sales_col := if mem "sales" (columns df) then "sales" else "valor" in
    v <- coerced df sales_col ;;
    Ok (setcol df "sales" (float_series v))
  else
    let qty_cols := filter is_qty_like (columns df) in
    let price_cols := filter is_price_like (columns df) in
    match qty_cols, price_cols with
    | q :: _, p :: _ =>
        quantity <- coerced df q ;;
        let df1 := setcol df "quantity" (float_series quantity) in
        price <- coerced df1 p ;;
        let df2 := setcol df1 "price" (float_series price) in
        Ok (setcol df2 "sales" (float_series (series_mul quantity price)))
    | _, _ =>
        let other := filter is_other_total (columns df) in
        match other with
        | o :: _ =>
            v <- coerced df o ;;
            Ok (setcol df "sales" (float_series v))
        | [] => Raise NoSalesColumns
        end
    end.

(** Lines 75-79. *)
Definition ensure_product (df : frame) : result frame :=
  let prod_cols := filter is_product_like (columns df) in
  match prod_cols with
  | p :: _ =>
      s <- lookup df p ;;
      Ok (setcol df "product" (astype_str s))
  | [] => Raise NoProductColumn
  end.

(** The function, on the frame that pd.read_excel has produced; [conv] is
    the call of line 50. *)
Definition read_sales_excel_with (conv : series -> result (list (option date)))
    (sheet : frame) : result frame :=
  let df := normalize_headers sheet in
  df <- ensure_date_with conv df ;;
  df <- detect_sales df ;;
  ensure_product df.

Definition read_sales_excel (sheet : frame) : result frame :=
  read_sales_excel_with to_datetime sheet.

(** *** summarize_by_product (lines 83-90), summarize_by_month (lines 92-99) *)

(** The key column of a groupby: text keys, [None] for a missing key. *)
Fixpoint group_keys (c : string) (s : series) : result (list (option string)) :=
  match s with
  | [] => Ok []
  | Text k :: rest => ks <- group_keys c rest ;; Ok (Some k :: ks)
  | NA :: rest => ks <- group_keys c rest ;; Ok (None :: ks)
  | _ :: _ => Raise (TypeError c)
  end.

(** The column that is summed: numbers, [None] for NaN. *)
Fixpoint float_values (c : string) (s : series) : result (list (option Qc)) :=
  match s with
  | [] => Ok []
  | Number q :: rest => vs <- float_values c rest ;; Ok (Some q :: vs)
  | NA :: rest => vs <- float_values c rest ;; Ok (None :: vs)
  | _ :: _ => Raise (TypeError c)
  end.

Definition product_summary := list (option string * Qc).
Definition month_summary := list (date * Qc).

(** [grp.sort_values('sales', ascending=False)]. *)
Definition sort_by_sales_desc {K} (grp : list (K * Qc)) : list (K * Qc) :=
  stable_sort (fun y x => Qc_ltb (snd x) (snd y)) grp.

(** [grp.sort_values('month')]. *)
Definition sort_by_month (grp : month_summary) : month_summary :=
  stable_sort (fun y x => date_ltb (fst y) (fst x)) grp.

Definition summarize_by_product (df : frame) : result product_summary :=
  p <- lookup df "product" ;;
  keys <- group_keys "product" p ;;
  s <- lookup df "sales" ;;
  vals <- float_values "sales" s ;;
  (* groupby('product', dropna=False): the missing key is a group *)
  let grp := groupby_sum key_ltb key_eqb (combine keys vals) in
  Ok (sort_by_sales_desc grp).

(** [.dt.to_period('M').dt.to_timestamp()]: first day of the month. *)
Definition month_start (d : date) : date := mkdate (year d) (month d) 1.

(** The function assigns [df['month']]: the frame it was given comes back
    changed, next to the summary. *)
Definition summarize_by_month (df : frame) (date_col : string)
  : result (frame * month_summary) :=
  s <- lookup df date_col ;;
  d <- to_datetime s ;;
  let months := map (option_map month_start) d in
  let df' := setcol df "month" (datetime_series months) in
  s <- lookup df' "sales" ;;
  vals <- float_values "sales" s ;;
  (* groupby('month'): dropna is left at its default, rows without a
     month are dropped *)
  let grp := groupby_sum date_ltb date_eqb (dropna (combine months vals)) in
  Ok (df', sort_by_month grp).

(** *** Charts and document, as the data they show

    The drawing and the typesetting are the work of matplotlib and
    reportlab, and they can fail (a bar without a product name, a label or
    a title that the renderer cannot parse); these failures are not
    modelled, and no theorem states that a chart or a document is
    produced for every input. *)

Record bar_chart := {
  shown : nat;                       (* the N of the title 'Top N ...' *)
  bars : list (option string * Qc)
}.

(** Lines 105-122. *)
Definition plot_top_products (df_products : product_summary) (top_n : nat)
  : bar_chart :=
  let top := rev (firstn top_n df_products) in
  {| shown := Nat.min top_n (length top); bars := top |}.

(** Lines 124-142. *)
Definition plot_monthly_sales (df_monthly : month_summary) : month_summary :=
  df_monthly.

Record document := {
  doc_title : string;
  doc_subtitle : string;
  doc_total_sales : Qc;
  doc_total_products : nat;
  doc_top_chart : bar_chart;
  doc_product_table : product_summary;
  doc_month_chart : month_summary;
  doc_month_table : month_summary
}.

(** Lines 148-219, with the metadata that [main] passes. *)
Definition create_pdf_report (df_products : product_summary)
    (df_monthly : month_summary) (top_products : bar_chart)
    (monthly : month_summary) (title subtitle : string) : document :=
  {| doc_title := title;
     doc_subtitle := subtitle;
     doc_total_sales := sum_skipna (map (fun r => Some (snd r)) df_products);
     doc_total_products := length df_products;
     doc_top_chart := top_products;
     doc_product_table := firstn 20 df_products;
     doc_month_chart := monthly;
     doc_month_table := df_monthly |}.

(** *** main (lines 225-252) *)

Inductive outcome :=
| Usage                                (* message printed, sys.exit(1) *)
| Failed (e : error)                   (* uncaught exception *)
| Written (path : string) (doc : document).

Definition main (read_excel : string -> option frame) (argv : list string)
  : outcome :=
  match argv with
  | _ :: excel_path :: pdf_path :: _ =>
      let run :=
        sheet <- match read_excel excel_path with
                 | Some sheet => Ok sheet
                 | None => Raise FileError
                 end ;;
        df <- read_sales_excel sheet ;;
        df_products <- summarize_by_product df ;;
        r <- summarize_by_month df "date" ;;
        let df_monthly := snd r in
        let buf_top := plot_top_products df_products 10 in
        let buf_month := plot_monthly_sales df_monthly in
        Ok (create_pdf_report df_products df_monthly buf_top buf_month
              "Relatório de Vendas" ("Fonte: " ++ excel_path))
      in
      match run with
      | Ok doc => Written pdf_path doc
      | Raise e => Failed e
      end
  | _ => Usage
  end.

(** *** Reading the result of the sales block *)

(** The silent-zero policy on one cell: its number, or 0. *)
Definition coerce0 (c : cell) : Qc :=
  match to_numeric_scalar c with
  | Some q => q
  | None => 0%Qc
  end.

(** Where the 'sales' column comes from: one column taken as it is, or a
    quantity column times a price column. *)
Inductive sales_from (df : frame) : frame -> Prop :=
| sales_direct (c : string) (s : series) :
    c = "sales" \/ c = "valor" \/ is_other_total c = true ->
    getcol df c = Some s ->
    sales_from df (setcol df "sales" (map (fun x => Number (coerce0 x)) s))
| sales_computed (q p : string) (a b : series) :
    is_qty_like q = true -> is_price_like p = true ->
    getcol df q = Some a -> getcol df p = Some b ->
    sales_from df
      (setcol
         (setcol (setcol df "quantity" (map (fun x => Number (coerce0 x)) a))
                 "price" (map (fun x => Number (coerce0 x)) b))
         "sales"
         (map (fun xy => Number (coerce0 (fst xy) * coerce0 (snd xy))%Qc)
              (combine a b))).

End Script.

(* ------------------------------------------------------------------ *)
(** ** An instance that runs

    Plain spellings only: ASCII headers, decimal numerals with an optional
    sign and fraction, ISO dates [YYYY-MM-DD].  It serves to evaluate the
    script on concrete sheets. *)

Definition ascii_isspace (a : ascii) : bool :=
  let n := nat_of_ascii a in
  ((9 <=? n) && (n <=? 13) || (28 <=? n) && (n <=? 32))%nat.

Definition ascii_lower (a : ascii) : ascii :=
  let n := nat_of_ascii a in
  if ((65 <=? n) && (n <=? 90))%nat then ascii_of_nat (n + 32) else a.

Fixpoint lstrip (l : list ascii) : list ascii :=
  match l with
  | a :: l' => if ascii_isspace a then lstrip l' else l
  | [] => []
  end.

Definition sample_header_norm (c : string) : string :=
  let stripped := rev (lstrip (rev (lstrip (list_ascii_of_string c)))) in
  string_of_list_ascii (map ascii_lower stripped).

Definition digit_of (a : ascii) : option Z :=
  let n := nat_of_ascii a in
  if ((48 <=? n) && (n <=? 57))%nat then Some (Z.of_nat (n - 48)) else None.

(** The value of a non-empty run of digits. *)
Fixpoint digits_value (acc : Z) (l : list ascii) : option Z :=
  match l with
  | [] => Some acc
  | a :: l' =>
      match digit_of a with
      | Some d => digits_value (10 * acc + d) l'
      | None => None
      end
  end.

Definition number_of_digits (l : list ascii) : option Z :=
  match l with
  | [] => None
  | _ => digits_value 0 l
  end.

Fixpoint split_at (sep : ascii) (l : list ascii) : list ascii * option (list ascii) :=
  match l with
  | [] => ([], None)
  | a :: l' =>
      if Ascii.eqb a sep then ([], Some l')
      else let r := split_at sep l' in (a :: fst r, snd r)
  end.

Definition unsigned_decimal (l : list ascii) : option Q :=
  match split_at "." l with
  | (ip, None) =>
      match number_of_digits ip with
      | Some n => Some (n # 1)
      | None => None
      end
  | (ip, Some fp) =>
      match number_of_digits ip, number_of_digits fp with
      | Some n, Some f =>
          let scale := Pos.pow 10 (Pos.of_nat (List.length fp)) in
          Some ((n * Zpos scale + f) # scale)
      | _, _ => None
      end
  end.

Definition sample_numeric_of_text (s : string) : option Qc :=
  match list_ascii_of_string s with
  | "-"%char :: l => option_map (fun q => Q2Qc (- q)) (unsigned_decimal l)
  | "+"%char :: l => option_map Q2Qc (unsigned_decimal l)
  | l => option_map Q2Qc (unsigned_decimal l)
  end.

Definition is_leap (y : Z) : bool :=
  ((y mod 4 =? 0) && (negb (y mod 100 =? 0) || (y mod 400 =? 0)))%Z.

Definition days_in_month (y m : Z) : Z :=
  if (m =? 2)%Z then (if is_leap y then 29 else 28)
  else if ((m =? 4) || (m =? 6) || (m =? 9) || (m =? 11))%Z then 30
  else 31.

Definition valid_date (d : date) : bool :=
  ((1 <=? month d) && (month d <=? 12)
   && (1 <=? day d) && (day d <=? days_in_month (year d) (month d)))%Z.

Definition sample_datetime_of_text (s : string) : option (option date) :=
  match list_ascii_of_string s with
  | [] => Some None
  | [y1; y2; y3; y4; "-"%char; m1; m2; "-"%char; d1; d2] =>
      match number_of_digits [y1; y2; y3; y4],
            number_of_digits [m1; m2], number_of_digits [d1; d2] with
      | Some y, Some m, Some d =>
          let dt := mkdate y m d in
          if valid_date dt then Some (Some dt) else None
      | _, _, _ => None
      end
  | _ => None
  end.

(** Days since 1970-01-01 to a calendar date. *)
Definition civil_of_days (n : Z) : date :=
  let z := (n + 719468)%Z in
  let era := (z / 146097)%Z in
  let doe := (z mod 146097)%Z in
  let yoe := ((doe - doe / 1460 + doe / 36524 - doe / 146096) / 365)%Z in
  let doy := (doe - (365 * yoe + yoe / 4 - yoe / 100))%Z in
  let mp := ((5 * doy + 2) / 153)%Z in
  let d := (doy - (153 * mp + 2) / 5 + 1)%Z in
  let m := (if mp <? 10 then mp + 3 else mp - 9)%Z in
  let y := (yoe + era * 400 + (if m <=? 2 then 1 else 0))%Z in
  mkdate y m d.

(** A number is a count of nanoseconds since 1970-01-01. *)
Definition sample_datetime_of_number (q : Qc) : option (option date) :=
  let ns := Qfloor q in
  if ((- 2 ^ 63 <? ns) && (ns <? 2 ^ 63))%Z
  then Some (Some (civil_of_days (ns / 86400000000000)))
  else None.

Definition string_of_Z (z : Z) : string :=
  DecimalString.NilZero.string_of_int (Z.to_int z).

Fixpoint fraction_digits (fuel : nat) (r den : Z) : string :=
  match fuel with
  | O => ""
  | S fuel' =>
      if (r =? 0)%Z then ""
      else string_of_Z (10 * r / den) ++ fraction_digits fuel' (10 * r mod den) den
  end.

Definition sample_str_of_number (q : Qc) : string :=
  let n := Qnum q in
  let d := Zpos (Qden q) in
  let ip := (Z.abs n / d)%Z in
  let r := (Z.abs n mod d)%Z in
  (if (n <? 0)%Z then "-" else "")
  ++ string_of_Z ip
  ++ (if (r =? 0)%Z then "" else "." ++ fraction_digits 20 r d).

Definition two_digits (z : Z) : string :=
  (if (z <? 10)%Z then "0" else "") ++ string_of_Z z.

Definition sample_str_of_date (d : date) : string :=
  string_of_Z (year d) ++ "-" ++ two_digits (month d) ++ "-" ++ two_digits (day d).

(** A date among the cells of a column to be read as numbers is coerced to
    NaN. *)
#[export] Instance sample_externals : Externals := {|
  header_norm := sample_header_norm;
  numeric_of_text := sample_numeric_of_text;
  numeric_of_date := fun _ => None;
  datetime_of_text := sample_datetime_of_text;
  datetime_of_number := sample_datetime_of_number;
  str_of_number := sample_str_of_number;
  str_of_date := sample_str_of_date;
  str_of_missing := Some "nan"
|}.

Definition qc (n : Z) (d : positive) : Qc := Q2Qc (n # d).

(* ------------------------------------------------------------------ *)
(** ** Orders, totals and the tie rule *)

(** A boolean relation read as a proposition. *)
Definition holds {A} (r : A -> A -> bool) : A -> A -> Prop :=
  fun a b => r a b = true.

(** What grouping and sorting need of a key order: a decidable strict
    total order with its equality test. *)
Class KeyOrder {K : Type} (kltb keqb : K -> K -> bool) := {
  keqb_eq : forall a b, keqb a b = true <-> a = b;
  kltb_irrefl : forall a, kltb a a = false;
  kltb_trans : forall a b c, kltb a b = true -> kltb b c = true -> kltb a c = true;
  kltb_total : forall a b, kltb a b = false -> keqb a b = false -> kltb b a = true
}.

(** The sum a summary shows as its total: [grp['sales'].sum()]. *)
Definition total {K} (grp : list (K * Qc)) : Qc :=
  sum_skipna (map (fun r => Some (snd r)) grp).

(** The number a row adds to a sum: NaN adds nothing. *)
Definition addend (x : option Qc) : Qc :=
  match x with Some q => q | None => 0%Qc end.

(** The order a stable sort leaves: [a] strictly before [b], or the two
    tied and in the order [orig] they had in the input. *)
Definition sorted_then {A} (before : A -> A -> bool) (orig : A -> A -> Prop)
    (a b : A) : Prop :=
  before a b = true \/ (before b a = false /\ orig a b).

Definition Qc_eqb (x y : Qc) : bool :=
  match (x ?= y)%Qc with Eq => true | _ => false end.

(** Position of the first row that carries the key [k]. *)
Fixpoint first_index (k : option string) (keys : list (option string)) : nat :=
  match keys with
  | [] => 0
  | k' :: rest => if key_eqb k k' then 0 else S (first_index k rest)
  end.

(** The tie rule in the words of the specification: of two groups with
    equal sums, the one seen first in the rows comes first. *)
Fixpoint ties_first_seen (keys : list (option string)) (out : product_summary)
  : bool :=
  match out with
  | [] => true
  | a :: rest =>
      forallb (fun b => negb (Qc_eqb (snd a) (snd b))
                        || (first_index (fst a) keys <? first_index (fst b) keys)%nat)
              rest
      && ties_first_seen keys rest
  end.

(* ------------------------------------------------------------------ *)
(** ** Concrete sheets *)

Definition jan5 : date := mkdate 2025 1 5.
Definition feb2 : date := mkdate 2025 2 2.

(** The frame a successful call returns, for evaluation on a given sheet. *)
Definition normalized (sheet : frame) : frame :=
  match read_sales_excel sheet with
  | Ok df => df
  | Raise _ => []
  end.

(** A sheet with a direct sales column next to quantity and price. *)
Definition both_paths_sheet : frame :=
  [ ("date", [Date jan5]); ("product", [Text "Camiseta"]);
    ("quantity", [Number (qc 3 1)]); ("price", [Number (qc 499 10)]);
    ("sales", [Number (qc 100 1)]) ].

(** Quantity and price with unreadable entries. *)
Definition gaps_sheet : frame :=
  [ ("date", [Date jan5; Date feb2; Date feb2]);
    ("item", [Text "Meia"; Text "Meia"; Text "Bone"]);
    ("qty", [Text "n/a"; Number (qc 2 1); Number (qc 3 1)]);
    ("price", [Number (qc 99 10); Text "?"; Text "39.90"]) ].

Definition gaps_sales : frame :=
  match detect_sales gaps_sheet with
  | Ok df => df
  | Raise _ => []
  end.

(** The second row has no date. *)
Definition undated_sheet : frame :=
  [ ("date", [Date jan5; NA]);
    ("product", [Text "Camiseta"; Text "Camiseta"]);
    ("sales", [Number (qc 10 1); Number (qc 5 1)]) ].

(** Two products with equal sales, 'Tenis' first in the rows. *)
Definition tie_sheet : frame :=
  [ ("date", [Date jan5; Date feb2]);
    ("product", [Text "Tenis"; Text "Bermuda"]);
    ("sales", [Number (qc 10 1); Number (qc 10 1)]) ].



(** Readable dates, but neither product nor sales columns. *)
Definition dates_only_sheet : frame :=
  [ ("data", [Date jan5; Text "2025-02-02"]); ("note", [Text "a"; Text "b"]) ].

(** No date-like label at all. *)
Definition no_date_sheet : frame :=
  [ ("product", [Text "Camiseta"]); ("sales", [Number (qc 10 1)]) ].

(** The scenario of the specification, the two dates left open. *)
Definition camiseta_sheet (c1 c2 : cell) : frame :=
  [ ("date", [c1; c2]);
    ("product", [Text "Camiseta"; Text "Camiseta"]);
    ("quantity", [Number (qc 3 1); Number (qc 2 1)]);
    ("price", [Number (qc 499 10); Number (qc 499 10)]) ].

(** Equalities between evaluated values that contain rationals. *)
Ltac qc_equal :=
  repeat match goal with
         | |- @eq Qc _ _ => apply Qc_is_canon; reflexivity
         | |- Ok _ = Ok _ => apply f_equal
         | |- Some _ = Some _ => apply f_equal
         | |- (_ :: _) = (_ :: _) => apply f_equal2
         | |- (_, _) = (_, _) => apply f_equal2
         | |- Number _ = Number _ => apply f_equal
         | |- _ => reflexivity
         end.

Definition tie_months : frame * month_summary :=
  match summarize_by_month (normalized tie_sheet) "date" with
  | Ok r => r
  | Raise _ => ([], [])
  end.

Ltac take_branch := cbv beta iota zeta delta [orb].

(** [read_sales_excel] as its three blocks. *)
Ltac unfold_read :=
  unfold read_sales_excel, read_sales_excel_with;
  change (ensure_date_with to_datetime ?x) with (ensure_date x).

Tactic Notation "unfold_read" "in" hyp(H) :=
  unfold read_sales_excel, read_sales_excel_with in H;
  change (ensure_date_with to_datetime ?x) with (ensure_date x) in H.


(* ------------------------------------------------------------------ *)
(** ** The rest of the script: metadata of the report, more sheets *)







(** The rows of [tie_sheet] in the other order, 'Bermuda' first. *)
Definition tie_swapped_sheet : frame :=
  [ ("date", [Date feb2; Date jan5]);
    ("product", [Text "Bermuda"; Text "Tenis"]);
    ("sales", [Number (qc 10 1); Number (qc 10 1)]) ].


(** The five labels that [read_sales_excel] writes. *)
Definition written_labels : list string :=
  ["date"; "quantity"; "price"; "sales"; "product"].

(** Every column has [n] rows. *)
Definition rectangular (n : nat) (df : frame) : Prop :=
  Forall (fun col => length (snd col) = n) df.

(** Dates and sales, but no product-like label. *)
Definition no_product_sheet : frame :=
  [ ("date", [Date jan5; Date feb2]);
    ("sales", [Number (qc 10 1); Number (qc 5 1)]) ].

(** An empty product cell, a numeric product code, and a column that is
    none of the script's business. *)
Definition codes_sheet : frame :=
  [ ("Order Date", [Date jan5; Date feb2; Date feb2]);
    ("Item", [Text "Meia"; NA; Number (qc 42 1)]);
    ("Total", [Number (qc 10 1); Number (qc 5 1); Number (qc 1 1)]);
    ("Note", [Text "a"; Text "b"; Text "c"]) ].

(** The summaries of a normalized sheet, for evaluation. *)
Definition products_of (sheet : frame) : product_summary :=
  match summarize_by_product (normalized sheet) with
  | Ok out => out
  | Raise _ => []
  end.

Definition months_of (sheet : frame) : frame * month_summary :=
  match summarize_by_month (normalized sheet) "date" with
  | Ok r => r
  | Raise _ => ([], [])
  end.

(* ------------------------------------------------------------------ *)
(** ** Frames: reading and writing columns *)

Lemma mem_In (x : string) (l : list string) : mem x l = true <-> In x l.
Proof.
  unfold mem. rewrite existsb_exists. split.
  - intros [y [Hy Heq]]. apply String.eqb_eq in Heq. now subst.
  - intros H. exists x. split; [assumption | apply String.eqb_refl].
Qed.

Lemma mem_false (x : string) (l : list string) : mem x l = false <-> ~ In x l.
Proof.
  rewrite <- mem_In. destruct (mem x l); split; congruence.
Qed.

Lemma getcol_In (df : frame) (c : string) :
  In c (columns df) -> exists s, getcol df c = Some s.
Proof.
  induction df as [| [c' s'] df IH]; simpl; [tauto |].
  intros [-> | H].
  - rewrite String.eqb_refl. eauto.
  - destruct (String.eqb c' c); eauto.
Qed.

Lemma getcol_setcol_same (df : frame) (c : string) (s : series) :
  getcol (setcol df c s) c = Some s.
Proof.
  induction df as [| [c' s'] df IH]; simpl.
  - now rewrite String.eqb_refl.
  - destruct (String.eqb c' c) eqn:Heq; simpl.
    + now rewrite String.eqb_refl.
    + now rewrite Heq.
Qed.

Lemma getcol_setcol_other (df : frame) (c c' : string) (s : series) :
  c <> c' -> getcol (setcol df c s) c' = getcol df c'.
Proof.
  intros Hne.
  induction df as [| [c0 s0] df IH]; simpl.
  - apply String.eqb_neq in Hne. now rewrite Hne.
  - destruct (String.eqb c0 c) eqn:Heq; simpl.
    + apply String.eqb_eq in Heq. subst c0.
      apply String.eqb_neq in Hne. now rewrite Hne.
    + now rewrite IH.
Qed.

(** A test that the written label fails sees the same labels afterwards. *)
Lemma filter_columns_setcol (f : string -> bool) (df : frame) (c : string)
    (s : series) :
  f c = false ->
  filter f (columns (setcol df c s)) = filter f (columns df).
Proof.
  intros Hf.
  induction df as [| [c0 s0] df IH]; simpl.
  - now rewrite Hf.
  - destruct (String.eqb c0 c) eqn:Heq; simpl.
    + apply String.eqb_eq in Heq. now subst c0.
    + now rewrite IH.
Qed.

Lemma mem_columns_setcol (x c : string) (df : frame) (s : series) :
  x <> c -> mem x (columns (setcol df c s)) = mem x (columns df).
Proof.
  intros Hne. unfold mem.
  induction df as [| [c0 s0] df IH]; simpl.
  - apply String.eqb_neq in Hne. now rewrite Hne.
  - destruct (String.eqb c0 c) eqn:Heq; simpl.
    + apply String.eqb_eq in Heq. now subst c0.
    + now rewrite IH.
Qed.

Lemma In_columns_setcol (x c : string) (df : frame) (s : series) :
  In x (columns df) -> In x (columns (setcol df c s)).
Proof.
  induction df as [| [c0 s0] df IH]; simpl; [tauto |].
  destruct (String.eqb c0 c) eqn:Heq; simpl.
  - apply String.eqb_eq in Heq. subst c0. tauto.
  - intros [H | H]; [now left | right; auto].
Qed.

Lemma columns_rename (df : frame) (f : string -> string) :
  columns (rename df f) = map f (columns df).
Proof.
  unfold columns, rename. rewrite !map_map. reflexivity.
Qed.


(** The head of a comprehension [[c for c in cols if f c]] is the first
    label, in table order, that passes the test. *)
Lemma filter_head {A} (f : A -> bool) (l : list A) (c : A) (rest : list A) :
  filter f l = c :: rest ->
  exists pre post, l = (pre ++ c :: post)%list /\ f c = true
                   /\ forall x, In x pre -> f x = false.
Proof.
  induction l as [| a l IH]; simpl; [discriminate |].
  destruct (f a) eqn:Hfa.
  - intros [= -> <-]. exists [], l. simpl. tauto.
  - intros H. destruct (IH H) as (pre & post & -> & Hc & Hpre).
    exists (a :: pre), post. simpl. repeat split; auto.
    intros x [<- | Hx]; auto.
Qed.

Lemma filter_first {A} (f : A -> bool) (pre post : list A) (c : A) :
  f c = true -> (forall x, In x pre -> f x = false) ->
  filter f (pre ++ c :: post)%list = c :: filter f post.
Proof.
  intros Hc.
  induction pre as [| a pre IH]; simpl; intros Hpre.
  - now rewrite Hc.
  - rewrite (Hpre a) by now left. apply IH. intros x Hx. apply Hpre. now right.
Qed.

Lemma filter_head_In {A} (f : A -> bool) (l : list A) (c : A) (rest : list A) :
  filter f l = c :: rest -> In c l /\ f c = true.
Proof.
  intros H. assert (Hin : In c (filter f l)) by (rewrite H; now left).
  now apply filter_In in Hin.
Qed.

(** [needle in s] holds exactly when [s] has [needle] as a substring. *)
Lemma prefix_append (n s : string) :
  String.prefix n s = true <-> exists post, s = n ++ post.
Proof.
  revert s. induction n as [| a n IH]; intros s; simpl.
  - destruct s; split; eauto.
  - destruct s as [| b s]; simpl.
    + split; [discriminate | intros [post H]; discriminate].
    + destruct (Ascii.ascii_dec a b) as [-> | Hne].
      * rewrite IH. split; intros [post H]; exists post; congruence.
      * split; [discriminate | intros [post H]; congruence].
Qed.

Lemma contains_substring (n s : string) :
  contains n s = true <-> exists pre post, s = pre ++ n ++ post.
Proof.
  induction s as [| a s IH].
  - change (contains n "") with (String.prefix n "" || false).
    rewrite orb_false_r, prefix_append. split.
    + intros [post H]. exists "", post. assumption.
    + intros [pre [post H]]. destruct pre; simpl in H; [eauto | discriminate].
  - change (contains n (String a s))
      with (String.prefix n (String a s) || contains n s).
    rewrite orb_true_iff, prefix_append, IH. split.
    + intros [[post H] | [pre [post H]]].
      * exists "", post. assumption.
      * exists (String a pre), post. simpl. now rewrite H.
    + intros [pre [post H]]. destruct pre as [| b pre]; simpl in H.
      * left. eauto.
      * right. injection H as _ H. eauto.
Qed.

(** A label is date-like when 'date' or 'data' occurs in it. *)
Lemma is_date_like_substring (c : string) :
  is_date_like c = true
  <-> exists pre post, c = pre ++ "date" ++ post \/ c = pre ++ "data" ++ post.
Proof.
  unfold is_date_like. rewrite orb_true_iff, !contains_substring. split.
  - intros [[pre [post H]] | [pre [post H]]]; exists pre, post; auto.
  - intros [pre [post [H | H]]]; [left | right]; eauto.
Qed.

(* ------------------------------------------------------------------ *)
(** ** The sales column *)

Section SalesColumn.
Context {E : Externals}.

Lemma coerced_getcol (df : frame) (c : string) (s : series) :
  getcol df c = Some s -> coerced df c = Ok (fillna 0%Qc (to_numeric s)).
Proof.
  intros H. unfold coerced, lookup. now rewrite H.
Qed.

Lemma float_series_coerced (s : series) :
  float_series (fillna 0%Qc (to_numeric s)) = map (fun x => Number (coerce0 x)) s.
Proof.
  unfold float_series, fillna, to_numeric, coerce0. rewrite !map_map.
  apply map_ext. intros x. now destruct (to_numeric_scalar x).
Qed.

Lemma float_series_mul_coerced (a b : series) :
  float_series (series_mul (fillna 0%Qc (to_numeric a)) (fillna 0%Qc (to_numeric b)))
  = map (fun xy => Number (coerce0 (fst xy) * coerce0 (snd xy))%Qc) (combine a b).
Proof.
  revert b. induction a as [| x a IH]; intros [| y b]; try reflexivity.
  specialize (IH b). unfold float_series, series_mul in *. simpl.
  rewrite IH. unfold coerce0.
  now destruct (to_numeric_scalar x), (to_numeric_scalar y).
Qed.

Lemma price_like_not_quantity (p : string) :
  is_price_like p = true -> "quantity" <> p.
Proof.
  intros H <-. discriminate H.
Qed.

Lemma detect_sales_direct (df : frame) (c : string) :
  In c (columns df) ->
  exists s, getcol df c = Some s
            /\ (v <- coerced df c ;; Ok (setcol df "sales" (float_series v)))
               = Ok (setcol df "sales" (float_series (fillna 0%Qc (to_numeric s)))).
Proof.
  intros Hin. destruct (getcol_In df c Hin) as [s Hs].
  exists s. split; [assumption |]. now rewrite (coerced_getcol _ _ _ Hs).
Qed.

Lemma detect_sales_computed (df : frame) (q p : string) :
  In q (columns df) -> In p (columns df) -> is_price_like p = true ->
  exists a b, getcol df q = Some a /\ getcol df p = Some b
    /\ (quantity <- coerced df q ;;
        price <- coerced (setcol df "quantity" (float_series quantity)) p ;;
        Ok (setcol
              (setcol (setcol df "quantity" (float_series quantity))
                      "price" (float_series price))
              "sales" (float_series (series_mul quantity price))))
       = Ok (setcol
               (setcol (setcol df "quantity"
                          (float_series (fillna 0%Qc (to_numeric a))))
                       "price" (float_series (fillna 0%Qc (to_numeric b))))
               "sales"
               (float_series (series_mul (fillna 0%Qc (to_numeric a))
                                         (fillna 0%Qc (to_numeric b))))).
Proof.
  intros Hq Hp Hprice.
  destruct (getcol_In df q Hq) as [a Ha], (getcol_In df p Hp) as [b Hb].
  exists a, b. repeat split; try assumption.
  rewrite (coerced_getcol _ _ _ Ha). unfold bind at 1.
  rewrite (coerced_getcol _ p b); [reflexivity |].
  rewrite getcol_setcol_other; [assumption |].
  now apply price_like_not_quantity.
Qed.

(** Every way [detect_sales] succeeds, and the only way it fails. *)
Lemma detect_sales_cases (df : frame) :
  match detect_sales df with
  | Ok df' => sales_from df df'
  | Raise e => e = NoSalesColumns
  end.
Proof.
  unfold detect_sales.
  destruct (mem "sales" (columns df)) eqn:Hs; take_branch.
  { apply mem_In in Hs.
    destruct (detect_sales_direct df "sales" Hs) as (s & Hg & ->).
    rewrite float_series_coerced. apply (sales_direct df "sales"); auto. }
  destruct (mem "valor" (columns df)) eqn:Hv; take_branch.
  { apply mem_In in Hv.
    destruct (detect_sales_direct df "valor" Hv) as (s & Hg & ->).
    rewrite float_series_coerced. apply (sales_direct df "valor"); auto. }
  assert (Hother :
    match
      match filter is_other_total (columns df) with
      | o :: _ => v <- coerced df o ;; Ok (setcol df "sales" (float_series v))
      | [] => Raise NoSalesColumns
      end
    with
    | Ok df' => sales_from df df'
    | Raise e => e = NoSalesColumns
    end).
  { destruct (filter is_other_total (columns df)) as [| o os] eqn:Ho;
      [reflexivity |].
    apply filter_head_In in Ho. destruct Ho as [Hin Ho].
    destruct (detect_sales_direct df o Hin) as (s & Hg & ->).
    rewrite float_series_coerced. apply (sales_direct df o); auto. }
  destruct (filter is_qty_like (columns df)) as [| q qs] eqn:Hq;
    [exact Hother |].
  destruct (filter is_price_like (columns df)) as [| p ps] eqn:Hp;
    [exact Hother |].
  apply filter_head_In in Hq, Hp. destruct Hq as [Hqin Hq], Hp as [Hpin Hp].
  destruct (detect_sales_computed df q p Hqin Hpin Hp) as (a & b & Ha & Hb & ->).
  rewrite !float_series_coerced, float_series_mul_coerced.
  now apply (sales_computed df q p).
Qed.

(** Without any of the three sources the sales block fails. *)
Lemma detect_sales_none (df : frame) :
  ~ In "sales" (columns df) -> ~ In "valor" (columns df) ->
  filter is_qty_like (columns df) = [] \/ filter is_price_like (columns df) = [] ->
  filter is_other_total (columns df) = [] ->
  detect_sales df = Raise NoSalesColumns.
Proof.
  intros Hs Hv Hqp Ho. unfold detect_sales.
  apply mem_false in Hs, Hv. rewrite Hs, Hv, Ho. take_branch.
  destruct Hqp as [-> | ->]; [reflexivity |].
  now destruct (filter is_qty_like (columns df)).
Qed.


(** C1.  The sales column is resolved in a fixed order that stops at the
    first match: (1) a column named exactly 'sales', else one named exactly
    'valor', is taken as it is, whatever quantity-like and price-like
    columns the table also has, and no product of columns is computed;
    (2) otherwise the first quantity-like and the first price-like column
    are multiplied; (3) otherwise the first column named 'amount',
    'valor_total' or 'total' is taken; (4) otherwise the call fails. *)
Theorem sales_path_priority (df : frame) :
  let cols := columns df in
  let direct c :=
    exists s, getcol df c = Some s
      /\ detect_sales df
         = Ok (setcol df "sales" (float_series (fillna 0%Qc (to_numeric s)))) in
  (In "sales" cols -> direct "sales")
  /\ (~ In "sales" cols -> In "valor" cols -> direct "valor")
  /\ (~ In "sales" cols -> ~ In "valor" cols ->
      forall q qs p ps,
        filter is_qty_like cols = q :: qs ->
        filter is_price_like cols = p :: ps ->
        exists a b, getcol df q = Some a /\ getcol df p = Some b
          /\ detect_sales df
             = Ok (setcol
                     (setcol (setcol df "quantity"
                                (float_series (fillna 0%Qc (to_numeric a))))
                             "price" (float_series (fillna 0%Qc (to_numeric b))))
                     "sales"
                     (float_series (series_mul (fillna 0%Qc (to_numeric a))
                                               (fillna 0%Qc (to_numeric b))))))
  /\ (~ In "sales" cols -> ~ In "valor" cols ->
      filter is_qty_like cols = [] \/ filter is_price_like cols = [] ->
      forall o os, filter is_other_total cols = o :: os -> direct o)
  /\ (~ In "sales" cols -> ~ In "valor" cols ->
      filter is_qty_like cols = [] \/ filter is_price_like cols = [] ->
      filter is_other_total cols = [] ->
      detect_sales df = Raise NoSalesColumns).
Proof.
  intros cols direct. subst direct. unfold detect_sales. fold cols.
  repeat split.
  - intros Hs. apply mem_In in Hs. rewrite Hs. take_branch.
    destruct (detect_sales_direct df "sales" (proj1 (mem_In _ _) Hs)) as (s & Hg & Heq).
    exists s. split; assumption.
  - intros Hs Hv. apply mem_false in Hs. apply mem_In in Hv. rewrite Hs, Hv. take_branch.
    destruct (detect_sales_direct df "valor" (proj1 (mem_In _ _) Hv)) as (s & Hg & Heq).
    exists s. split; assumption.
  - intros Hs Hv q qs p ps Hq Hp.
    apply mem_false in Hs, Hv. rewrite Hs, Hv, Hq, Hp. take_branch.
    apply filter_head_In in Hq, Hp. destruct Hq as [Hqin Hq], Hp as [Hpin Hp].
    destruct (detect_sales_computed df q p Hqin Hpin Hp) as (a & b & Ha & Hb & Heq).
    exists a, b. repeat split; assumption.
  - intros Hs Hv Hqp o os Ho.
    apply mem_false in Hs, Hv. rewrite Hs, Hv, Ho. take_branch.
    apply filter_head_In in Ho. destruct Ho as [Hin Ho].
    destruct (detect_sales_direct df o Hin) as (s & Hg & Heq).
    exists s. split; [assumption |].
    destruct Hqp as [-> | ->]; [assumption |].
    now destruct (filter is_qty_like cols).
  - intros Hs Hv Hqp Ho. fold (detect_sales df). now apply detect_sales_none.
Qed.



End SalesColumn.

(* ------------------------------------------------------------------ *)
(** ** The date column, the product column, the whole normalization *)

Section Normalization.
Context {E : Externals}.

Lemma filter_none {A} (f : A -> bool) (l : list A) :
  (forall x, In x l -> f x = false) -> filter f l = [].
Proof.
  induction l as [| a l IH]; simpl; intros H; [reflexivity |].
  rewrite (H a) by now left. apply IH. intros x Hx. apply H. now right.
Qed.



Lemma to_datetime_raises (s : series) (e : error) :
  to_datetime s = Raise e ->
  e = DateParseError /\ exists x, In x s /\ to_datetime_scalar x = None.
Proof.
  induction s as [| c s IH]; simpl; [discriminate |].
  destruct (to_datetime_scalar c) as [d0 |] eqn:Hc.
  - destruct (to_datetime s) as [d | e'] eqn:Hs; simpl; [discriminate |].
    intros [= <-]. destruct (IH eq_refl) as [-> [x [Hin Hx]]].
    split; [reflexivity |]. exists x. split; [now right | assumption].
  - intros [= <-]. split; [reflexivity |]. exists c. split; [now left | assumption].
Qed.

(** The date block reads the first date-like label. *)
Lemma ensure_date_first (df : frame) (c : string) (rest : list string)
    (s : series) :
  filter is_date_like (columns df) = c :: rest ->
  getcol df c = Some s ->
  ensure_date df
  = (d <- to_datetime s ;; Ok (setcol df "date" (datetime_series d))).
Proof.
  intros Hc Hs. unfold ensure_date, ensure_date_with, lookup.
  now rewrite Hc, Hs.
Qed.

Lemma ensure_date_cases (df : frame) :
  match ensure_date df with
  | Ok df1 => exists d, df1 = setcol df "date" (datetime_series d)
  | Raise e => e = NoDateColumn \/ e = DateParseError
  end.
Proof.
  unfold ensure_date, ensure_date_with.
  destruct (filter is_date_like (columns df)) as [| c rest] eqn:Hc; [now left |].
  apply filter_head_In in Hc. destruct Hc as [Hin _].
  destruct (getcol_In df c Hin) as [s Hs]. unfold lookup. rewrite Hs. simpl.
  destruct (to_datetime s) as [d | e] eqn:Hd; simpl; [eauto |].
  right. now apply to_datetime_raises in Hd.
Qed.

Lemma ensure_product_cases (df : frame) :
  match ensure_product df with
  | Ok df' => exists s, df' = setcol df "product" (astype_str s)
  | Raise e => e = NoProductColumn
  end.
Proof.
  unfold ensure_product.
  destruct (filter is_product_like (columns df)) as [| p rest] eqn:Hp;
    [reflexivity |].
  apply filter_head_In in Hp. destruct Hp as [Hin _].
  destruct (getcol_In df p Hin) as [s Hs]. unfold lookup. rewrite Hs. simpl.
  eauto.
Qed.

(** The three blocks of a successful call. *)
Lemma read_sales_excel_ok (sheet df' : frame) :
  read_sales_excel sheet = Ok df' ->
  exists df1 df2,
    ensure_date (normalize_headers sheet) = Ok df1
    /\ detect_sales df1 = Ok df2
    /\ ensure_product df2 = Ok df'.
Proof.
  unfold_read.
  destruct (ensure_date (normalize_headers sheet)) as [df1 | e]; simpl;
    [| discriminate].
  destruct (detect_sales df1) as [df2 | e] eqn:Hd; simpl; [| discriminate].
  intros H. exists df1, df2. repeat split; assumption.
Qed.

Lemma read_sales_excel_no_date (sheet : frame) :
  (forall c, In c (columns (normalize_headers sheet)) -> is_date_like c = false) ->
  read_sales_excel sheet = Raise NoDateColumn.
Proof.
  intros Hnone. unfold_read.
  assert (Hd : ensure_date (normalize_headers sheet) = Raise NoDateColumn).
  { unfold ensure_date, ensure_date_with. cbv zeta.
    now rewrite (filter_none _ _ Hnone). }
  now rewrite Hd.
Qed.



(** C9.  With no date-like label the run fails with the schema error and
    writes no document; otherwise the date block reads the first date-like
    label in table order. *)
Theorem missing_date_column_fails_run (read_excel : string -> option frame)
    (prog excel_path pdf_path : string) (more : list string) (sheet : frame) :
  read_excel excel_path = Some sheet ->
  let df := normalize_headers sheet in
  let argv := prog :: excel_path :: pdf_path :: more in
  ((forall c, In c (columns df) -> is_date_like c = false) ->
     (exists e, main read_excel argv = Failed e /\ SchemaError e)
     /\ forall path doc, main read_excel argv <> Written path doc)
  /\ (forall pre c post,
        columns df = (pre ++ c :: post)%list ->
        is_date_like c = true ->
        (forall x, In x pre -> is_date_like x = false) ->
        exists s, getcol df c = Some s
          /\ ensure_date df
             = (d <- to_datetime s ;; Ok (setcol df "date" (datetime_series d)))).
Proof.
  intros Hread df argv. split.
  - intros Hnone.
    assert (Hmain : main read_excel argv = Failed NoDateColumn).
    { unfold argv, main. cbv zeta.
      rewrite Hread. cbn [bind].
      rewrite (read_sales_excel_no_date sheet Hnone). reflexivity. }
    rewrite Hmain. split.
    + exists NoDateColumn. split; [reflexivity | now left].
    + discriminate.
  - intros pre c post Hcols Hc Hpre.
    assert (Hin : In c (columns df)).
    { rewrite Hcols. apply in_or_app. right. now left. }
    destruct (getcol_In df c Hin) as [s Hs]. exists s. split; [assumption |].
    apply (ensure_date_first df c (filter is_date_like post)); [| assumption].
    rewrite Hcols. now apply filter_first.
Qed.








End Normalization.

(* ------------------------------------------------------------------ *)
(** ** Orders on group keys *)

Lemma ascii_compare_refl (a : ascii) : Ascii.compare a a = Eq.
Proof. apply N.compare_refl. Qed.

Lemma ascii_compare_lt_trans (a b c : ascii) :
  Ascii.compare a b = Lt -> Ascii.compare b c = Lt -> Ascii.compare a c = Lt.
Proof.
  unfold Ascii.compare. rewrite !N.compare_lt_iff. apply N.lt_trans.
Qed.

Lemma string_compare_refl (s : string) : String.compare s s = Eq.
Proof.
  induction s as [| a s IH]; simpl; [reflexivity |].
  now rewrite ascii_compare_refl.
Qed.

Lemma string_compare_lt_trans (a b c : string) :
  String.compare a b = Lt -> String.compare b c = Lt -> String.compare a c = Lt.
Proof.
  revert b c. induction a as [| x a IH]; intros [| y b] [| z c]; simpl;
    try discriminate; try reflexivity.
  destruct (Ascii.compare x y) eqn:Hxy; try discriminate;
    destruct (Ascii.compare y z) eqn:Hyz; try discriminate; intros Hab Hbc.
  - apply Ascii.compare_eq_iff in Hxy, Hyz. subst.
    rewrite ascii_compare_refl. eauto.
  - apply Ascii.compare_eq_iff in Hxy. subst. now rewrite Hyz.
  - apply Ascii.compare_eq_iff in Hyz. subst. now rewrite Hxy.
  - now rewrite (ascii_compare_lt_trans x y z).
Qed.

Lemma string_ltb_irrefl (s : string) : String.ltb s s = false.
Proof. unfold String.ltb. now rewrite string_compare_refl. Qed.

Lemma string_ltb_trans (a b c : string) :
  String.ltb a b = true -> String.ltb b c = true -> String.ltb a c = true.
Proof.
  unfold String.ltb.
  destruct (String.compare a b) eqn:Hab; try discriminate.
  destruct (String.compare b c) eqn:Hbc; try discriminate.
  now rewrite (string_compare_lt_trans a b c).
Qed.

Lemma string_ltb_total (a b : string) :
  String.ltb a b = false -> String.eqb a b = false -> String.ltb b a = true.
Proof.
  unfold String.ltb. intros Hlt Hne. apply String.eqb_neq in Hne.
  rewrite (String.compare_antisym b a).
  destruct (String.compare a b) eqn:Hab; try discriminate; try reflexivity.
  now apply String.compare_eq_iff in Hab.
Qed.

#[export] Instance key_order : KeyOrder key_ltb key_eqb.
Proof.
  split.
  - intros [a |] [b |]; simpl; try (split; congruence).
    rewrite String.eqb_eq. split; congruence.
  - intros [a |]; simpl; [apply string_ltb_irrefl | reflexivity].
  - intros [a |] [b |] [c |]; simpl; try discriminate; try reflexivity.
    apply string_ltb_trans.
  - intros [a |] [b |]; simpl; try discriminate; try reflexivity.
    apply string_ltb_total.
Qed.

#[export] Instance date_order : KeyOrder date_ltb date_eqb.
Proof.
  split.
  - intros [y1 m1 d1] [y2 m2 d2]. unfold date_eqb. simpl.
    rewrite !andb_true_iff, !Z.eqb_eq. split.
    + intros [[-> ->] ->]. reflexivity.
    + intros [= -> -> ->]. auto.
  - intros [y m d]. unfold date_ltb. simpl.
    rewrite !Z.ltb_irrefl, !Z.eqb_refl. reflexivity.
  - intros [y1 m1 d1] [y2 m2 d2] [y3 m3 d3]. unfold date_ltb. simpl.
    rewrite !orb_true_iff, !andb_true_iff, !orb_true_iff, !andb_true_iff,
      !Z.ltb_lt, !Z.eqb_eq. lia.
  - intros [y1 m1 d1] [y2 m2 d2]. unfold date_ltb, date_eqb. simpl.
    destruct (Z.ltb_spec y1 y2), (Z.eqb_spec y1 y2), (Z.ltb_spec m1 m2),
      (Z.eqb_spec m1 m2), (Z.ltb_spec d1 d2), (Z.eqb_spec d1 d2),
      (Z.ltb_spec y2 y1), (Z.eqb_spec y2 y1), (Z.ltb_spec m2 m1),
      (Z.eqb_spec m2 m1), (Z.ltb_spec d2 d1);
      simpl; try discriminate; try reflexivity; lia.
Qed.

Lemma Qc_ltb_lt (x y : Qc) : Qc_ltb x y = true <-> (x < y)%Qc.
Proof.
  unfold Qc_ltb. rewrite Qclt_alt.
  destruct (x ?= y)%Qc; split; congruence.
Qed.

Lemma Qc_ltb_ge (x y : Qc) : Qc_ltb x y = false <-> (y <= x)%Qc.
Proof.
  split; intros H.
  - apply Qcnot_lt_le. intros Hlt. apply Qc_ltb_lt in Hlt. congruence.
  - destruct (Qc_ltb x y) eqn:Hb; [| reflexivity].
    apply Qc_ltb_lt in Hb. now apply Qcle_not_lt in H.
Qed.

(* ------------------------------------------------------------------ *)
(** ** Grouping: the keys and the sums *)

Section GroupByFacts.
Context {K : Type} {kltb keqb : K -> K -> bool} {O : KeyOrder kltb keqb}.

Lemma keqb_refl (a : K) : keqb a a = true.
Proof. now apply keqb_eq. Qed.

Lemma In_insert_key (x k : K) (l : list K) :
  In x (insert_key kltb keqb k l) <-> x = k \/ In x l.
Proof.
  induction l as [| k' l IH]; simpl.
  - intuition.
  - destruct (keqb k k') eqn:Heq.
    + apply keqb_eq in Heq. subst k'. simpl. intuition.
    + destruct (kltb k k'); simpl; [intuition |].
      rewrite IH. intuition.
Qed.

Lemma In_sorted_keys (x : K) (l : list K) :
  In x (sorted_keys kltb keqb l) <-> In x l.
Proof.
  induction l as [| k l IH]; simpl; [tauto |].
  rewrite In_insert_key, IH. intuition.
Qed.

Lemma insert_key_sorted (k : K) (l : list K) :
  StronglySorted (holds kltb) l -> StronglySorted (holds kltb) (insert_key kltb keqb k l).
Proof.
  induction 1 as [| k' l Hs IH Hall]; simpl.
  - repeat constructor.
  - destruct (keqb k k') eqn:Heq; [now constructor |].
    destruct (kltb k k') eqn:Hlt.
    + constructor; [now constructor |].
      constructor; [assumption |].
      eapply Forall_impl; [| exact Hall].
      intros a Ha. unfold holds in *. eapply kltb_trans; eassumption.
    + constructor; [assumption |].
      apply Forall_forall. intros a Ha. apply In_insert_key in Ha.
      destruct Ha as [-> | Ha].
      * apply kltb_total; assumption.
      * rewrite Forall_forall in Hall. now apply Hall.
Qed.

Lemma sorted_keys_sorted (l : list K) :
  StronglySorted (holds kltb) (sorted_keys kltb keqb l).
Proof.
  induction l as [| k l IH]; simpl; [constructor |].
  now apply insert_key_sorted.
Qed.

Lemma sorted_NoDup (l : list K) : StronglySorted (holds kltb) l -> NoDup l.
Proof.
  induction 1 as [| k l Hs IH Hall]; constructor; [| assumption].
  intros Hin. rewrite Forall_forall in Hall. specialize (Hall k Hin).
  unfold holds in Hall. now rewrite kltb_irrefl in Hall.
Qed.

End GroupByFacts.

Section GroupSums.
Context {K : Type} {kltb keqb : K -> K -> bool} {O : KeyOrder kltb keqb}.

Lemma sum_skipna_cons (x : option Qc) (l : list (option Qc)) :
  sum_skipna (x :: l) = (addend x + sum_skipna l)%Qc.
Proof.
  destruct x; simpl; [reflexivity | ring].
Qed.

Lemma group_sum_cons (k : K) (r : K * option Qc) (rows : list (K * option Qc)) :
  group_sum keqb k (r :: rows)
  = ((if keqb (fst r) k then addend (snd r) else 0) + group_sum keqb k rows)%Qc.
Proof.
  unfold group_sum. simpl. destruct (keqb (fst r) k); simpl.
  - destruct (snd r); simpl; [reflexivity | ring].
  - ring.
Qed.

Lemma total_cons (k : K) (v : Qc) (grp : list (K * Qc)) :
  total ((k, v) :: grp) = (v + total grp)%Qc.
Proof. reflexivity. Qed.

(** Over distinct keys, one row is counted in exactly one group. *)
Lemma total_one_key (k0 : K) (v : Qc) (ks : list K) :
  NoDup ks -> In k0 ks ->
  total (map (fun k => (k, if keqb k0 k then v else 0%Qc)) ks) = v.
Proof.
  induction 1 as [| k ks Hnotin Hnd IH]; intros Hin; [contradiction |].
  simpl map. rewrite total_cons.
  assert (Hrest : forall l, ~ In k0 l ->
            total (map (fun k => (k, if keqb k0 k then v else 0%Qc)) l) = 0%Qc).
  { induction l as [| a l IHl]; intros Hn; [reflexivity |].
    simpl map. rewrite total_cons, IHl by (intros H; apply Hn; now right).
    destruct (keqb k0 a) eqn:Heq; [| ring].
    apply keqb_eq in Heq. subst a. exfalso. apply Hn. now left. }
  destruct Hin as [-> | Hin].
  - rewrite keqb_refl, Hrest by assumption. ring.
  - rewrite IH by assumption.
    destruct (keqb k0 k) eqn:Heq; [| ring].
    apply keqb_eq in Heq. now subst k.
Qed.

Lemma total_pointwise_add (f g : K -> Qc) (ks : list K) :
  total (map (fun k => (k, (f k + g k)%Qc)) ks)
  = (total (map (fun k => (k, f k)) ks) + total (map (fun k => (k, g k)) ks))%Qc.
Proof.
  induction ks as [| k ks IH]; simpl map.
  - unfold total. simpl. ring.
  - rewrite !total_cons, IH. ring.
Qed.

(** Summing the group sums over distinct keys that cover the rows gives
    the sum of all rows. *)
Lemma total_of_groups (ks : list K) (rows : list (K * option Qc)) :
  NoDup ks -> (forall r, In r rows -> In (fst r) ks) ->
  total (map (fun k => (k, group_sum keqb k rows)) ks)
  = sum_skipna (map snd rows).
Proof.
  intros Hnd. induction rows as [| r rows IH]; intros Hcover.
  - clear Hcover Hnd. induction ks as [| k ks IHk]; [reflexivity |].
    simpl map. rewrite total_cons, IHk. unfold group_sum. simpl. ring.
  - simpl map at 2. rewrite sum_skipna_cons.
    rewrite (map_ext _ (fun k => (k, ((if keqb (fst r) k then addend (snd r) else 0)
                                      + group_sum keqb k rows)%Qc)))
      by (intros k; now rewrite group_sum_cons).
    rewrite (total_pointwise_add
               (fun k => if keqb (fst r) k then addend (snd r) else 0%Qc)
               (fun k => group_sum keqb k rows)).
    rewrite total_one_key; [| assumption | apply Hcover; now left].
    rewrite IH; [reflexivity |]. intros r' Hr'. apply Hcover. now right.
Qed.

Lemma groupby_total (rows : list (K * option Qc)) :
  total (groupby_sum kltb keqb rows) = sum_skipna (map snd rows).
Proof.
  unfold groupby_sum. apply total_of_groups.
  - apply (sorted_NoDup (kltb := kltb) (keqb := keqb)), sorted_keys_sorted.
  - intros r Hr. apply In_sorted_keys. now apply in_map.
Qed.

Lemma groupby_keys (rows : list (K * option Qc)) :
  map fst (groupby_sum kltb keqb rows) = sorted_keys kltb keqb (map fst rows).
Proof.
  unfold groupby_sum. rewrite map_map. simpl. apply map_id.
Qed.

Lemma groupby_sorted (rows : list (K * option Qc)) :
  StronglySorted (fun a b => kltb (fst a) (fst b) = true)
                 (groupby_sum kltb keqb rows).
Proof.
  unfold groupby_sum.
  pose proof (sorted_keys_sorted (map fst rows)) as Hs.
  induction Hs as [| k ks Hs IH Hall]; simpl; constructor; [assumption |].
  rewrite Forall_map. eapply Forall_impl; [| exact Hall]. intros a Ha. exact Ha.
Qed.

Lemma groupby_In (rows : list (K * option Qc)) (k : K) (v : Qc) :
  In (k, v) (groupby_sum kltb keqb rows) -> v = group_sum keqb k rows.
Proof.
  unfold groupby_sum. rewrite in_map_iff. intros [k' [[= -> ->] _]]. reflexivity.
Qed.

End GroupSums.

(* ------------------------------------------------------------------ *)
(** ** The stable sort *)

Section StableSortFacts.
Context {A : Type}.
Variable before : A -> A -> bool.

Lemma insert_perm (x : A) (l : list A) : Permutation (insert before x l) (x :: l).
Proof.
  induction l as [| y l IH]; simpl; [reflexivity |].
  destruct (before y x); [| reflexivity].
  rewrite IH. apply perm_swap.
Qed.

Lemma stable_sort_perm (l : list A) : Permutation (stable_sort before l) l.
Proof.
  induction l as [| x l IH]; simpl; [reflexivity |].
  rewrite insert_perm. now constructor.
Qed.

(** [before] is a strict weak order. *)
Hypothesis before_asym : forall a b, before a b = true -> before b a = false.
Hypothesis before_cotrans :
  forall a b c, before a c = true -> before a b = true \/ before b c = true.

(** The order the rows had before the sort. *)
Variable orig : A -> A -> Prop.

Lemma insert_sorted (x : A) (l : list A) :
  Forall (orig x) l -> StronglySorted (sorted_then before orig) l ->
  StronglySorted (sorted_then before orig) (insert before x l).
Proof.
  intros Hx Hs. induction Hs as [| y l Hs IH Hall]; simpl.
  - repeat constructor.
  - apply Forall_cons_iff in Hx. destruct Hx as [Hxy Hxl].
    destruct (before y x) eqn:Hyx.
    + constructor; [now apply IH |].
      apply Forall_forall. intros z Hz.
      apply (Permutation_in _ (insert_perm x l)) in Hz.
      destruct Hz as [<- | Hz]; [now left |].
      rewrite Forall_forall in Hall. now apply Hall.
    + constructor; [now constructor |].
      constructor; [right; now split |].
      apply Forall_forall. intros z Hz. right. split.
      * destruct (before z x) eqn:Hzx; [| reflexivity].
        destruct (before_cotrans z y x Hzx) as [Hzy | Hyx']; [| congruence].
        rewrite Forall_forall in Hall.
        destruct (Hall z Hz) as [Hyz | [Hzy' _]]; [| congruence].
        apply before_asym in Hyz. congruence.
      * rewrite Forall_forall in Hxl. now apply Hxl.
Qed.

Lemma stable_sort_sorted (l : list A) :
  StronglySorted orig l -> StronglySorted (sorted_then before orig) (stable_sort before l).
Proof.
  induction 1 as [| x l Hs IH Hall]; simpl; [constructor |].
  apply insert_sorted; [| assumption].
  eapply Permutation_Forall; [| exact Hall].
  symmetry. apply stable_sort_perm.
Qed.

End StableSortFacts.

Lemma StronglySorted_weaken {A} (R R' : A -> A -> Prop) (l : list A) :
  (forall a b, R a b -> R' a b) -> StronglySorted R l -> StronglySorted R' l.
Proof.
  intros HR. induction 1 as [| a l Hs IH Hall]; constructor; [assumption |].
  eapply Forall_impl; [| exact Hall]. auto.
Qed.

Lemma total_perm {K} (l l' : list (K * Qc)) :
  Permutation l l' -> total l = total l'.
Proof.
  unfold total.
  induction 1 as [| [k v] l l' HP IH | [k1 v1] [k2 v2] l | l l' l'' HP1 IH1 HP2 IH2];
    simpl in *.
  - reflexivity.
  - now rewrite IH.
  - ring.
  - congruence.
Qed.

(** The sort by sales, descending: larger sums first, equal sums in the
    order the rows had. *)
Lemma sort_by_sales_desc_sorted {K} (orig : K * Qc -> K * Qc -> Prop)
    (grp : list (K * Qc)) :
  StronglySorted orig grp ->
  StronglySorted
    (fun a b => (snd b < snd a)%Qc \/ (snd a = snd b /\ orig a b))
    (sort_by_sales_desc grp).
Proof.
  intros Hs. unfold sort_by_sales_desc.
  eapply StronglySorted_weaken;
    [| apply (stable_sort_sorted (fun y x => Qc_ltb (snd x) (snd y))); [| | exact Hs]].
  - intros a b [Hlt | [Hge Ho]].
    + left. now apply Qc_ltb_lt.
    + apply Qc_ltb_ge in Hge.
      destruct (Qcle_lt_or_eq _ _ Hge) as [Hlt | Heq]; [now left |].
      right. now split.
  - intros a b Hab. apply Qc_ltb_lt in Hab. apply Qc_ltb_ge.
    now apply Qclt_le_weak.
  - intros a b c Hac. apply Qc_ltb_lt in Hac.
    destruct (Qclt_le_dec (snd b) (snd a)) as [Hlt | Hle].
    + left. now apply Qc_ltb_lt.
    + right. apply Qc_ltb_lt. eapply Qclt_le_trans; eassumption.
Qed.

(* ------------------------------------------------------------------ *)
(** ** The two summaries *)

Lemma lookup_getcol (df : frame) (c : string) (s : series) :
  getcol df c = Some s -> lookup df c = Ok s.
Proof. intros H. unfold lookup. now rewrite H. Qed.

(** The product summary is the sorted grouping, and it adds up to the sum
    of the grouped rows. *)
Lemma product_summary_rows (df : frame) (p s : series)
    (keys : list (option string)) (vals : list (option Qc)) :
  getcol df "product" = Some p -> group_keys "product" p = Ok keys ->
  getcol df "sales" = Some s -> float_values "sales" s = Ok vals ->
  summarize_by_product df
  = Ok (sort_by_sales_desc (groupby_sum key_ltb key_eqb (combine keys vals)))
  /\ total (sort_by_sales_desc (groupby_sum key_ltb key_eqb (combine keys vals)))
     = sum_skipna (map snd (combine keys vals)).
Proof.
  intros Hp Hk Hs Hv. split.
  - unfold summarize_by_product.
    rewrite (lookup_getcol _ _ _ Hp). cbn [bind]. rewrite Hk. cbn [bind].
    rewrite (lookup_getcol _ _ _ Hs). cbn [bind]. rewrite Hv. reflexivity.
  - unfold sort_by_sales_desc.
    rewrite (total_perm _ _ (stable_sort_perm _ _)).
    apply (groupby_total (kltb := key_ltb) (keqb := key_eqb)).
Qed.

(** C4 (amended).  The product summary has one row per product of the
    input, carrying the sum of that product's sales, and the rows are
    sorted by descending sum.  Nothing is said of the order among rows
    with equal sums. *)
Theorem product_summary_order (df : frame) (p s : series)
    (keys : list (option string)) (vals : list (option Qc)) :
  getcol df "product" = Some p -> group_keys "product" p = Ok keys ->
  getcol df "sales" = Some s -> float_values "sales" s = Ok vals ->
  let rows := combine keys vals in
  exists out,
    summarize_by_product df = Ok out
    /\ NoDup (map fst out)
    /\ (forall k, In k (map fst out) <-> In k (map fst rows))
    /\ (forall k v, In (k, v) out -> v = group_sum key_eqb k rows)
    /\ StronglySorted (fun a b => (snd b <= snd a)%Qc) out.
Proof.
  intros Hp Hk Hs Hv rows.
  exists (sort_by_sales_desc (groupby_sum key_ltb key_eqb rows)).
  assert (Hperm : Permutation (sort_by_sales_desc (groupby_sum key_ltb key_eqb rows))
                              (groupby_sum key_ltb key_eqb rows))
    by apply stable_sort_perm.
  split; [| split; [| split; [| split]]].
  - apply (product_summary_rows df p s keys vals Hp Hk Hs Hv).
  - apply (Permutation_NoDup (l := map fst (groupby_sum key_ltb key_eqb rows))).
    + symmetry. now apply Permutation_map.
    + rewrite groupby_keys.
      apply (sorted_NoDup (kltb := key_ltb) (keqb := key_eqb)), sorted_keys_sorted.
  - intros k.
    rewrite <- (In_sorted_keys (kltb := key_ltb) (keqb := key_eqb) k (map fst rows)).
    rewrite <- groupby_keys.
    split; apply Permutation_in; [| symmetry]; now apply Permutation_map.
  - intros k v Hin. apply (groupby_In (kltb := key_ltb)).
    now apply (Permutation_in _ Hperm).
  - eapply StronglySorted_weaken;
      [| apply (sort_by_sales_desc_sorted
                  (fun a b => key_ltb (fst a) (fst b) = true)),
         (groupby_sorted (kltb := key_ltb))].
    intros a b [Hlt | [Heq _]].
    + now apply Qclt_le_weak.
    + rewrite Heq. apply Qcle_refl.
Qed.

Lemma snd_combine {A B} (l : list A) (l' : list B) :
  length l = length l' -> map snd (combine l l') = l'.
Proof.
  revert l'. induction l as [| a l IH]; intros [| b l']; simpl;
    try discriminate; try reflexivity.
  intros [= H]. now rewrite IH.
Qed.

(** Without a missing key no row leaves the grouping. *)
Lemma snd_dropna {K V} (f : K -> K) (ks : list (option K)) (vals : list V) :
  Forall (fun k => k <> None) ks -> length ks = length vals ->
  map snd (dropna (combine (map (option_map f) ks) vals)) = vals.
Proof.
  intros Hall. revert vals.
  induction Hall as [| k ks Hk Hall IH]; intros [| v vals]; simpl;
    try discriminate; try reflexivity.
  intros [= Hlen]. destruct k as [k |]; [| congruence].
  simpl. now rewrite IH.
Qed.

Section MonthSummary.
Context {E : Externals}.

(** C6 (amended).  [summarize_by_product] returns a summary and nothing
    else.  [summarize_by_month] hands back the frame it received with the
    column 'month' written (overwritten, or added last); every other column
    reads as before, and the product summary of the frame is unchanged. *)
Theorem summarize_by_month_writes_month (df df' : frame) (date_col : string)
    (m : month_summary) :
  summarize_by_month df date_col = Ok (df', m) ->
  (exists months, df' = setcol df "month" months)
  /\ (forall c, c <> "month" -> getcol df' c = getcol df c)
  /\ summarize_by_product df' = summarize_by_product df.
Proof.
  unfold summarize_by_month.
  destruct (lookup df date_col) as [s | e]; cbn [bind]; [| discriminate].
  destruct (to_datetime s) as [d | e]; cbn [bind]; [| discriminate].
  set (months := datetime_series (map (option_map month_start) d)).
  destruct (lookup (setcol df "month" months) "sales") as [sl | e]; cbn [bind];
    [| discriminate].
  destruct (float_values "sales" sl) as [vals | e]; cbn [bind]; [| discriminate].
  intros [= <- _].
  assert (Hother : forall c, c <> "month" ->
            getcol (setcol df "month" months) c = getcol df c).
  { intros c Hc. apply getcol_setcol_other. congruence. }
  split; [now exists months | split; [exact Hother |]].
  unfold summarize_by_product, lookup.
  now rewrite !Hother by discriminate.
Qed.

(** When the three columns have one entry per row and no date is missing,
    both summaries add up to the sum of the sales column. *)
Lemma totals_agree_without_missing_dates (df : frame) (date_col : string)
    (p s ds : series) (keys : list (option string)) (vals : list (option Qc))
    (dates : list (option date)) :
  getcol df "product" = Some p -> group_keys "product" p = Ok keys ->
  getcol df "sales" = Some s -> float_values "sales" s = Ok vals ->
  getcol df date_col = Some ds -> to_datetime ds = Ok dates ->
  length keys = length vals -> length dates = length vals ->
  Forall (fun d => d <> None) dates ->
  exists out df' m,
    summarize_by_product df = Ok out
    /\ summarize_by_month df date_col = Ok (df', m)
    /\ total out = sum_skipna vals
    /\ total m = sum_skipna vals.
Proof.
  intros Hp Hk Hs Hv Hd Ht Hlen1 Hlen2 Hall.
  destruct (product_summary_rows df p s keys vals Hp Hk Hs Hv) as [Hout Htot].
  eexists _, _, _. split; [exact Hout |].
  split; [| split].
  - unfold summarize_by_month.
    rewrite (lookup_getcol _ _ _ Hd). cbn [bind]. rewrite Ht. cbn [bind].
    unfold lookup. rewrite getcol_setcol_other by discriminate. rewrite Hs.
    cbn [bind]. rewrite Hv. cbn [bind]. reflexivity.
  - rewrite Htot. now rewrite snd_combine.
  - unfold sort_by_month.
    rewrite (total_perm _ _ (stable_sort_perm _ _)).
    rewrite (groupby_total (kltb := date_ltb) (keqb := date_eqb)).
    now rewrite snd_dropna.
Qed.

End MonthSummary.

(** C1 on [both_paths_sheet]: 'sales' is taken, quantity and price are not
    multiplied. *)
Lemma sales_path_priority_witness :
  exists s, getcol both_paths_sheet "sales" = Some s
    /\ detect_sales both_paths_sheet
       = Ok (setcol both_paths_sheet "sales"
               (float_series (fillna 0%Qc (to_numeric s)))).
Proof.
  apply (proj1 (sales_path_priority both_paths_sheet)).
  simpl. tauto.
Defined.


(** The rows of [gaps_sheet]: 0 for the unreadable quantity, 0 for the
    unreadable price, 3 x 39.90 for the readable row. *)
Example gaps_sales_values :
  getcol gaps_sales "sales"
  = Some [Number (qc 0 1); Number (qc 0 1); Number (qc 1197 10)].
Proof. vm_compute. qc_equal. Qed.

(** C3, at a sheet with a row without a date: the product summary counts
    the row, the month summary does not, and the two totals differ. *)
Theorem undated_row_leaves_month_summary :
  exists df out df' m,
    read_sales_excel undated_sheet = Ok df
    /\ summarize_by_product df = Ok out
    /\ summarize_by_month df "date" = Ok (df', m)
    /\ out = [(Some "Camiseta", qc 15 1)]
    /\ m = [(mkdate 2025 1 1, qc 10 1)]
    /\ total out <> total m.
Proof.
  eexists _, _, _, _.
  split; [reflexivity |]. split; [reflexivity |]. split; [reflexivity |].
  split; [vm_compute; qc_equal |]. split; [vm_compute; qc_equal |].
  intros H. apply (f_equal this) in H. vm_compute in H. discriminate H.
Qed.

(** The same sheet through [main]: the report states a total of 15 above a
    month table that adds up to 10. *)
Example undated_report_totals :
  exists doc,
    main (fun _ => Some undated_sheet)
         ["sales_report.py"; "vendas.xlsx"; "relatorio.pdf"]
    = Written "relatorio.pdf" doc
    /\ doc_total_sales doc = qc 15 1
    /\ total (doc_month_table doc) = qc 10 1.
Proof.
  eexists. split; [reflexivity |].
  split; apply Qc_is_canon; reflexivity.
Qed.

(** C4 as stated fails.  [tie_sheet] and [tie_swapped_sheet] hold the
    same two rows in opposite orders, two products with equal sales.  The
    grouping hands the same two groups to the sort, so both sheets get the
    same summary; it lists the two products in one of the two possible
    orders, and each of these breaks the first-seen rule on one of the two
    sheets. *)
Lemma ties_not_in_first_seen_order :
  exists out,
    (p <- lookup (normalized tie_sheet) "product" ;; group_keys "product" p)
    = Ok [Some "Tenis"; Some "Bermuda"]
    /\ (p <- lookup (normalized tie_swapped_sheet) "product" ;;
        group_keys "product" p)
       = Ok [Some "Bermuda"; Some "Tenis"]
    /\ summarize_by_product (normalized tie_sheet) = Ok out
    /\ summarize_by_product (normalized tie_swapped_sheet) = Ok out
    /\ Permutation (map fst out) [Some "Bermuda"; Some "Tenis"]
    /\ (ties_first_seen [Some "Tenis"; Some "Bermuda"] out = false
        \/ ties_first_seen [Some "Bermuda"; Some "Tenis"] out = false)
    /\ ties_first_seen [Some "Tenis"; Some "Bermuda"]
         [(Some "Bermuda", qc 10 1); (Some "Tenis", qc 10 1)] = false
    /\ ties_first_seen [Some "Bermuda"; Some "Tenis"]
         [(Some "Tenis", qc 10 1); (Some "Bermuda", qc 10 1)] = false.
Proof.
  eexists.
  split; [reflexivity |]. split; [reflexivity |].
  split; [reflexivity |]. split; [reflexivity |].
  split; [vm_compute; reflexivity |].
  split; [left; reflexivity |].
  split; reflexivity.
Qed.

(** C4 (amended) on the frame of [tie_sheet]. *)
Lemma product_summary_order_witness :
  exists out,
    summarize_by_product (normalized tie_sheet) = Ok out
    /\ NoDup (map fst out)
    /\ (forall k, In k (map fst out) <-> In k [Some "Tenis"; Some "Bermuda"])
    /\ (forall k v, In (k, v) out ->
          v = group_sum key_eqb k
                [(Some "Tenis", Some (qc 10 1)); (Some "Bermuda", Some (qc 10 1))])
    /\ StronglySorted (fun a b => (snd b <= snd a)%Qc) out.
Proof.
  apply (product_summary_order (normalized tie_sheet)
           [Text "Tenis"; Text "Bermuda"]
           [Number (qc 10 1); Number (qc 10 1)]
           [Some "Tenis"; Some "Bermuda"]
           [Some (qc 10 1); Some (qc 10 1)]); reflexivity.
Defined.



(** C6 as stated fails: after [summarize_by_month] the normalized frame has
    one more column. *)
Lemma month_summary_changes_frame :
  exists df df' m,
    read_sales_excel tie_sheet = Ok df
    /\ summarize_by_month df "date" = Ok (df', m)
    /\ columns df = ["date"; "product"; "sales"]
    /\ columns df' = ["date"; "product"; "sales"; "month"]
    /\ df' <> df.
Proof.
  eexists _, _, _.
  split; [reflexivity |]. split; [reflexivity |].
  split; [reflexivity |]. split; [reflexivity |].
  intros H. apply (f_equal columns) in H. discriminate H.
Qed.

(** C6 (amended) on the frame of [tie_sheet]. *)
Lemma summarize_by_month_writes_month_witness :
  (exists months, fst tie_months = setcol (normalized tie_sheet) "month" months)
  /\ (forall c, c <> "month" ->
        getcol (fst tie_months) c = getcol (normalized tie_sheet) c)
  /\ summarize_by_product (fst tie_months)
     = summarize_by_product (normalized tie_sheet).
Proof.
  apply (summarize_by_month_writes_month (normalized tie_sheet) (fst tie_months)
           "date" (snd tie_months)).
  reflexivity.
Defined.

Section Scenario.
Context {E : Externals}.

(** C7.  Two rows ('2025-01-05', 'Camiseta', 3, 49.90) and ('2025-02-02',
    'Camiseta', 2, 49.90) under the labels date, product, quantity, price:
    the product summary is [('Camiseta', 249.50)] and the month summary is
    [(2025-01-01, 149.70); (2025-02-01, 99.80)].  The labels are already
    normalized and the two date cells read as the two dates. *)
Theorem camiseta_scenario (c1 c2 : cell) :
  Forall (fun c => header_norm c = c) ["date"; "product"; "quantity"; "price"] ->
  to_datetime_scalar c1 = Some (Some jan5) ->
  to_datetime_scalar c2 = Some (Some feb2) ->
  (df <- read_sales_excel (camiseta_sheet c1 c2) ;; summarize_by_product df)
  = Ok [(Some "Camiseta", qc 2495 10)]
  /\ (df <- read_sales_excel (camiseta_sheet c1 c2) ;;
      r <- summarize_by_month df "date" ;; Ok (snd r))
     = Ok [(mkdate 2025 1 1, qc 1497 10); (mkdate 2025 2 1, qc 998 10)].
Proof.
  intros Hh H1 H2.
  assert (Hdate : ensure_date (normalize_headers (camiseta_sheet c1 c2))
                  = Ok (camiseta_sheet (Date jan5) (Date feb2))).
  { unfold normalize_headers, rename, camiseta_sheet. cbn [map fst snd].
    repeat match goal with
           | H : Forall _ (_ :: _) |- _ =>
               apply Forall_cons_iff in H; destruct H as [-> H]
           end.
    unfold ensure_date, ensure_date_with, lookup. cbn -[to_datetime_scalar].
    rewrite H1, H2. reflexivity. }
  unfold_read. rewrite Hdate. cbn [bind].
  split; vm_compute; qc_equal.
Qed.

End Scenario.

(** C7 with the dates given as text, read by [sample_externals]. *)
Lemma camiseta_scenario_witness :
  (df <- read_sales_excel (camiseta_sheet (Text "2025-01-05") (Text "2025-02-02")) ;;
   summarize_by_product df)
  = Ok [(Some "Camiseta", qc 2495 10)]
  /\ (df <- read_sales_excel (camiseta_sheet (Text "2025-01-05") (Text "2025-02-02")) ;;
      r <- summarize_by_month df "date" ;; Ok (snd r))
     = Ok [(mkdate 2025 1 1, qc 1497 10); (mkdate 2025 2 1, qc 998 10)].
Proof.
  apply (camiseta_scenario (Text "2025-01-05") (Text "2025-02-02")).
  - repeat constructor.
  - reflexivity.
  - reflexivity.
Defined.


(** C9 on [no_date_sheet]. *)
Lemma missing_date_column_fails_run_witness :
  (exists e, main (fun _ => Some no_date_sheet)
               ["sales_report.py"; "vendas.xlsx"; "relatorio.pdf"] = Failed e
             /\ SchemaError e)
  /\ forall path doc,
       main (fun _ => Some no_date_sheet)
         ["sales_report.py"; "vendas.xlsx"; "relatorio.pdf"] <> Written path doc.
Proof.
  refine (proj1 (missing_date_column_fails_run (fun _ => Some no_date_sheet)
                   "sales_report.py" "vendas.xlsx" "relatorio.pdf" []
                   no_date_sheet _) _).
  - reflexivity.
  - intros c Hc. simpl in Hc.
    destruct Hc as [<- | [<- | []]]; reflexivity.
Defined.



(* ------------------------------------------------------------------ *)
(** ** The normalized frame *)

Lemma In_columns_setcol_inv (x c : string) (df : frame) (s : series) :
  In x (columns (setcol df c s)) -> x = c \/ In x (columns df).
Proof.
  induction df as [| [c0 s0] df IH]; simpl.
  - intros [<- | []]. now left.
  - destruct (String.eqb c0 c) eqn:Heq; simpl.
    + intros [<- | H]; auto.
    + intros [<- | H]; auto. destruct (IH H); auto.
Qed.

Lemma rectangular_setcol (n : nat) (df : frame) (c : string) (s : series) :
  rectangular n df -> length s = n -> rectangular n (setcol df c s).
Proof.
  unfold rectangular. intros Hdf Hs.
  induction Hdf as [| [c0 s0] df H0 Hdf IH]; simpl.
  - repeat constructor. assumption.
  - destruct (String.eqb c0 c); constructor; auto.
Qed.

Lemma rectangular_getcol (n : nat) (df : frame) (c : string) (s : series) :
  rectangular n df -> getcol df c = Some s -> length s = n.
Proof.
  unfold rectangular. intros Hdf.
  induction Hdf as [| [c0 s0] df H0 Hdf IH]; simpl; [discriminate |].
  destruct (String.eqb c0 c); [intros [= <-]; assumption | assumption].
Qed.

Lemma rectangular_rename (n : nat) (df : frame) (f : string -> string) :
  rectangular n df -> rectangular n (rename df f).
Proof.
  unfold rectangular, rename. intros H. rewrite Forall_map.
  eapply Forall_impl; [| exact H]. intros [c s] Hc. exact Hc.
Qed.

Section NormalizedFrame.
Context {E : Externals}.

Lemma to_datetime_length (s : series) (d : list (option date)) :
  to_datetime s = Ok d -> length d = length s.
Proof.
  revert d. induction s as [| c s IH]; simpl; intros d.
  - intros [= <-]. reflexivity.
  - destruct (to_datetime_scalar c); [| discriminate].
    destruct (to_datetime s) as [d' | e]; simpl; [| discriminate].
    intros [= <-]. simpl. now rewrite (IH d').
Qed.

(** The date block, when it succeeds. *)
Lemma ensure_date_ok (df df1 : frame) :
  ensure_date df = Ok df1 ->
  exists c rest s d,
    filter is_date_like (columns df) = c :: rest
    /\ getcol df c = Some s
    /\ to_datetime s = Ok d
    /\ df1 = setcol df "date" (datetime_series d).
Proof.
  unfold ensure_date, ensure_date_with.
  destruct (filter is_date_like (columns df)) as [| c rest] eqn:Hc;
    [discriminate |].
  destruct (filter_head_In _ _ _ _ Hc) as [Hin _].
  destruct (getcol_In df c Hin) as [s Hs]. unfold lookup. rewrite Hs.
  cbn [bind]. destruct (to_datetime s) as [d | e] eqn:Hd; cbn [bind];
    [| discriminate].
  intros [= <-]. exists c, rest, s, d. auto.
Qed.

(** The product block reads the first product-like label. *)
Lemma ensure_product_first (df : frame) (p : string) (rest : list string)
    (s : series) :
  filter is_product_like (columns df) = p :: rest ->
  getcol df p = Some s ->
  ensure_product df = Ok (setcol df "product" (astype_str s)).
Proof.
  intros Hp Hs. unfold ensure_product, lookup. now rewrite Hp, Hs.
Qed.

Lemma ensure_product_none (df : frame) :
  filter is_product_like (columns df) = [] ->
  ensure_product df = Raise NoProductColumn.
Proof.
  intros Hp. unfold ensure_product. now rewrite Hp.
Qed.

(** What the sales block leaves alone. *)
Lemma sales_from_frame (df1 df2 : frame) :
  sales_from df1 df2 ->
  (forall c, c <> "quantity" -> c <> "price" -> c <> "sales" ->
     getcol df2 c = getcol df1 c)
  /\ (forall f, f "quantity" = false -> f "price" = false -> f "sales" = false ->
        filter f (columns df2) = filter f (columns df1))
  /\ (forall c, In c (columns df1) -> In c (columns df2))
  /\ (forall c, In c (columns df2) ->
        In c (columns df1) \/ c = "quantity" \/ c = "price" \/ c = "sales")
  /\ exists vs, getcol df2 "sales" = Some (map Number vs).
Proof.
  intros [c s Hc Hg | q p a b Hq Hp Ha Hb].
  - split; [| split; [| split; [| split]]].
    + intros c0 _ _ H. apply getcol_setcol_other. congruence.
    + intros f _ _ H. now apply filter_columns_setcol.
    + intros c0. apply In_columns_setcol.
    + intros c0 H. apply In_columns_setcol_inv in H. tauto.
    + exists (map coerce0 s). rewrite getcol_setcol_same, map_map. reflexivity.
  - split; [| split; [| split; [| split]]].
    + intros c0 H1 H2 H3.
      rewrite !getcol_setcol_other by congruence. reflexivity.
    + intros f H1 H2 H3. now rewrite !filter_columns_setcol.
    + intros c0 H. now do 3 apply In_columns_setcol.
    + intros c0 H. do 3 (apply In_columns_setcol_inv in H; destruct H as [H | H];
        [tauto |]). tauto.
    + exists (map (fun xy => coerce0 (fst xy) * coerce0 (snd xy))%Qc (combine a b)).
      rewrite getcol_setcol_same, map_map. reflexivity.
Qed.

Lemma sales_from_rectangular (n : nat) (df1 df2 : frame) :
  rectangular n df1 -> sales_from df1 df2 -> rectangular n df2.
Proof.
  intros Hrect [c s Hc Hg | q p a b Hq Hp Ha Hb].
  - apply rectangular_setcol; [assumption |].
    rewrite length_map. eapply rectangular_getcol; eassumption.
  - pose proof (rectangular_getcol _ _ _ _ Hrect Ha) as Hla.
    pose proof (rectangular_getcol _ _ _ _ Hrect Hb) as Hlb.
    repeat apply rectangular_setcol; try assumption;
      rewrite length_map; try assumption.
    rewrite length_combine, Hla, Hlb. apply Nat.min_id.
Qed.

(** The frame of a successful call, block by block. *)
Lemma read_sales_excel_blocks (sheet df' : frame) :
  read_sales_excel sheet = Ok df' ->
  exists d df2 p rest s,
    sales_from (setcol (normalize_headers sheet) "date" (datetime_series d)) df2
    /\ filter is_product_like (columns (normalize_headers sheet)) = p :: rest
    /\ getcol (normalize_headers sheet) p = Some s
    /\ df' = setcol df2 "product" (astype_str s)
    /\ exists c crest cs,
         filter is_date_like (columns (normalize_headers sheet)) = c :: crest
         /\ getcol (normalize_headers sheet) c = Some cs
         /\ to_datetime cs = Ok d.
Proof.
  intros Hread.
  destruct (read_sales_excel_ok _ _ Hread) as (df1 & df2 & Hdate & Hsales & Hprod).
  destruct (ensure_date_ok _ _ Hdate) as (c & crest & cs & d & Hc & Hcs & Hd & ->).
  pose proof (detect_sales_cases (setcol (normalize_headers sheet) "date"
                                    (datetime_series d))) as Hfrom.
  rewrite Hsales in Hfrom.
  destruct (sales_from_frame _ _ Hfrom) as (Hget & Hfilter & _).
  unfold ensure_product in Hprod.
  rewrite (Hfilter is_product_like eq_refl eq_refl eq_refl) in Hprod.
  rewrite (filter_columns_setcol is_product_like) in Hprod by reflexivity.
  destruct (filter is_product_like (columns (normalize_headers sheet)))
    as [| p rest] eqn:Hp; [discriminate |].
  destruct (filter_head_In _ _ _ _ Hp) as [Hin Hlike].
  destruct (getcol_In _ _ Hin) as [s Hs].
  assert (Hs2 : getcol df2 p = Some s).
  { rewrite Hget by (intros ->; discriminate Hlike).
    rewrite getcol_setcol_other by (intros <-; discriminate Hlike).
    exact Hs. }
  unfold lookup in Hprod. rewrite Hs2 in Hprod. cbn [bind] in Hprod.
  injection Hprod as <-.
  exists d, df2, p, rest, s. repeat split; try assumption.
  exists c, crest, cs. auto.
Qed.

End NormalizedFrame.

Section NormalizationExtras.
Context {E : Externals}.

(** The sales block fails only where none of its three sources exists. *)
Lemma detect_sales_raises (df : frame) (e : error) :
  detect_sales df = Raise e ->
  ~ In "sales" (columns df) /\ ~ In "valor" (columns df)
  /\ (filter is_qty_like (columns df) = [] \/ filter is_price_like (columns df) = [])
  /\ filter is_other_total (columns df) = [].
Proof.
  unfold detect_sales.
  destruct (mem "sales" (columns df)) eqn:Hs; take_branch.
  { apply mem_In in Hs.
    destruct (detect_sales_direct df "sales" Hs) as (s & _ & ->). discriminate. }
  destruct (mem "valor" (columns df)) eqn:Hv; take_branch.
  { apply mem_In in Hv.
    destruct (detect_sales_direct df "valor" Hv) as (s & _ & ->). discriminate. }
  apply mem_false in Hs, Hv.
  assert (Hother :
    match filter is_other_total (columns df) with
    | o :: _ => v <- coerced df o ;; Ok (setcol df "sales" (float_series v))
    | [] => Raise NoSalesColumns
    end = Raise e -> filter is_other_total (columns df) = []).
  { destruct (filter is_other_total (columns df)) as [| o os] eqn:Ho;
      [reflexivity |].
    destruct (filter_head_In _ _ _ _ Ho) as [Hin _].
    destruct (detect_sales_direct df o Hin) as (s & _ & ->). discriminate. }
  destruct (filter is_qty_like (columns df)) as [| q qs] eqn:Hq.
  { intros H. repeat split; auto. }
  destruct (filter is_price_like (columns df)) as [| p ps] eqn:Hp.
  { intros H. repeat split; auto. }
  destruct (filter_head_In _ _ _ _ Hq) as [Hqin _].
  destruct (filter_head_In _ _ _ _ Hp) as [Hpin Hplike].
  destruct (detect_sales_computed df q p Hqin Hpin Hplike) as (a & b & _ & _ & ->).
  discriminate.
Qed.

Lemma product_error_blocks (sheet : frame) :
  read_sales_excel sheet = Raise NoProductColumn ->
  (exists df1 df2, ensure_date (normalize_headers sheet) = Ok df1
                   /\ detect_sales df1 = Ok df2)
  /\ filter is_product_like (columns (normalize_headers sheet)) = [].
Proof.
  unfold_read.
  pose proof (ensure_date_cases (normalize_headers sheet)) as Hd.
  destruct (ensure_date (normalize_headers sheet)) as [df1 | e1] eqn:Hdate;
    cbn [bind].
  2:{ intros [= ->]. destruct Hd; discriminate. }
  destruct Hd as [d ->].
  pose proof (detect_sales_cases (setcol (normalize_headers sheet) "date"
                                    (datetime_series d))) as Hs.
  destruct (detect_sales _) as [df2 | e2] eqn:Hsales; cbn [bind].
  2:{ intros [= ->]. discriminate. }
  intros Hprod. split; [eauto |].
  destruct (sales_from_frame _ _ Hs) as (_ & Hfilter & _).
  unfold ensure_product in Hprod.
  rewrite (Hfilter is_product_like eq_refl eq_refl eq_refl) in Hprod.
  rewrite (filter_columns_setcol is_product_like) in Hprod by reflexivity.
  destruct (filter is_product_like (columns (normalize_headers sheet)))
    as [| p rest] eqn:Hp; [reflexivity |].
  exfalso. destruct (filter_head_In _ _ _ _ Hp) as [Hin Hlike].
  assert (Hin2 : In p (columns df2)).
  { apply (sales_from_frame _ _ Hs). now apply In_columns_setcol. }
  destruct (getcol_In _ _ Hin2) as [s Hg].
  unfold lookup in Hprod. rewrite Hg in Hprod. discriminate Hprod.
Qed.

(** X1.  The product block is the last check: the call fails for the
    missing product column exactly when the dates are read, a sales column
    is found, and no label contains 'product', 'produto' or 'item'. *)
Theorem missing_product_column_is_last_check (sheet : frame) :
  read_sales_excel sheet = Raise NoProductColumn
  <-> (exists df1 df2, ensure_date (normalize_headers sheet) = Ok df1
                       /\ detect_sales df1 = Ok df2)
      /\ filter is_product_like (columns (normalize_headers sheet)) = [].
Proof.
  split; [apply product_error_blocks |].
  unfold_read.
  intros [(df1 & df2 & Hdate & Hsales) Hp].
  rewrite Hdate. cbn [bind]. rewrite Hsales. cbn [bind].
  apply ensure_product_none.
  pose proof (ensure_date_cases (normalize_headers sheet)) as Hd.
  rewrite Hdate in Hd. destruct Hd as [d ->].
  pose proof (detect_sales_cases (setcol (normalize_headers sheet) "date"
                                    (datetime_series d))) as Hs.
  rewrite Hsales in Hs.
  destruct (sales_from_frame _ _ Hs) as (_ & Hfilter & _).
  rewrite (Hfilter is_product_like eq_refl eq_refl eq_refl).
  now rewrite (filter_columns_setcol is_product_like) by reflexivity.
Qed.

(** The failures of the three blocks as they are modelled, with what each
    says of the normalized labels of the sheet. *)
Lemma read_sales_excel_raises (sheet : frame) (e : error) :
  read_sales_excel sheet = Raise e ->
  let df := normalize_headers sheet in
  (e = NoDateColumn /\ filter is_date_like (columns df) = [])
  \/ (e = DateParseError
      /\ exists c rest s x,
           filter is_date_like (columns df) = c :: rest
           /\ getcol df c = Some s /\ In x s /\ to_datetime_scalar x = None)
  \/ (e = NoSalesColumns
      /\ filter is_date_like (columns df) <> []
      /\ ~ In "sales" (columns df) /\ ~ In "valor" (columns df)
      /\ (filter is_qty_like (columns df) = []
          \/ filter is_price_like (columns df) = [])
      /\ filter is_other_total (columns df) = [])
  \/ (e = NoProductColumn
      /\ filter is_date_like (columns df) <> []
      /\ filter is_product_like (columns df) = []).
Proof.
  intros Hread df. pose proof Hread as Hread0.
  unfold_read in Hread. fold df in Hread.
  destruct (ensure_date df) as [df1 | e1] eqn:Hdate; cbn [bind] in Hread.
  - destruct (ensure_date_ok _ _ Hdate) as (c & rest & s & d & Hc & Hs & Hd & ->).
    assert (Hne : filter is_date_like (columns df) <> []) by (rewrite Hc; discriminate).
    destruct (detect_sales (setcol df "date" (datetime_series d)))
      as [df2 | e2] eqn:Hsales; cbn [bind] in Hread.
    + pose proof (ensure_product_cases df2) as Hp. rewrite Hread in Hp. subst e.
      do 3 right. split; [reflexivity | split; [assumption |]].
      exact (proj2 (product_error_blocks sheet Hread0)).
    + injection Hread as <-.
      pose proof (detect_sales_cases (setcol df "date" (datetime_series d))) as Hk.
      rewrite Hsales in Hk. subst e2.
      destruct (detect_sales_raises _ _ Hsales) as (H1 & H2 & H3 & H4).
      do 2 right. left. split; [reflexivity | split; [assumption |]].
      rewrite <- mem_In, mem_columns_setcol in H1, H2 by discriminate.
      rewrite mem_In in H1, H2.
      rewrite !filter_columns_setcol in H3 by reflexivity.
      rewrite filter_columns_setcol in H4 by reflexivity.
      auto.
  - injection Hread as <-. unfold ensure_date, ensure_date_with in Hdate.
    destruct (filter is_date_like (columns df)) as [| c rest] eqn:Hc.
    + injection Hdate as <-. left. auto.
    + destruct (filter_head_In _ _ _ _ Hc) as [Hin _].
      destruct (getcol_In df c Hin) as [s Hs].
      unfold lookup in Hdate. rewrite Hs in Hdate. cbn [bind] in Hdate.
      destruct (to_datetime s) as [d | e'] eqn:Hd; cbn [bind] in Hdate;
        [discriminate |].
      injection Hdate as <-.
      destruct (to_datetime_raises _ _ Hd) as [-> (x & Hx & Hbad)].
      right. left. split; [reflexivity |]. exists c, rest, s, x. auto.
Qed.

(** X2.  The errors that the sales and date checks raise tell what the
    sheet lacks: the error of line 52, that no label contains 'date' or
    'data'; the error of line 72, that the sheet has a date-like label and
    none of the three sources of sales (no 'sales', no 'valor', not both a
    quantity-like and a price-like label, and none of 'amount',
    'valor_total', 'total').  Nothing is said of the other ways the call
    can fail. *)
Theorem normalization_failures (sheet : frame) :
  let df := normalize_headers sheet in
  (read_sales_excel sheet = Raise NoDateColumn ->
     filter is_date_like (columns df) = [])
  /\ (read_sales_excel sheet = Raise NoSalesColumns ->
        filter is_date_like (columns df) <> []
        /\ ~ In "sales" (columns df) /\ ~ In "valor" (columns df)
        /\ (filter is_qty_like (columns df) = []
            \/ filter is_price_like (columns df) = [])
        /\ filter is_other_total (columns df) = []).
Proof.
  intros df. split; intros Hread;
    destruct (read_sales_excel_raises sheet _ Hread)
      as [[H1 H2] | [[H1 H2] | [[H1 H2] | [H1 H2]]]];
    try discriminate H1; assumption.
Qed.

End NormalizationExtras.

(* ------------------------------------------------------------------ *)
(** ** From the normalized frame to the report *)


Section Pipeline.
Context {E : Externals}.

Lemma group_keys_text (c : string) (s : series) :
  group_keys c (astype_str s) = Ok (map str_scalar s).
Proof.
  unfold astype_str.
  induction s as [| x s IH]; [reflexivity |].
  cbn [map]. destruct (str_scalar x) as [t |]; cbn [group_keys];
    now rewrite IH.
Qed.

(** A column that is already dates converts to itself. *)
Lemma to_datetime_datetime_series (d : list (option date)) :
  to_datetime (datetime_series d) = Ok d.
Proof.
  unfold datetime_series.
  induction d as [| x d IH]; [reflexivity |].
  destruct x; cbn [map to_datetime to_datetime_scalar]; now rewrite IH.
Qed.



(** X3.  The product column of the normalized frame is the cast to text
    of the first product-like column of the sheet, in table order; the
    columns the call has written before (date, quantity, price, sales) are
    never taken for it, and the cast column always serves as group keys. *)
Theorem product_column_is_text (sheet df' : frame) :
  read_sales_excel sheet = Ok df' ->
  exists pre p post s,
    columns (normalize_headers sheet) = (pre ++ p :: post)%list
    /\ is_product_like p = true
    /\ (forall c, In c pre -> is_product_like c = false)
    /\ getcol (normalize_headers sheet) p = Some s
    /\ getcol df' "product" = Some (astype_str s)
    /\ exists keys, group_keys "product" (astype_str s) = Ok keys.
Proof.
  intros Hread.
  destruct (read_sales_excel_blocks _ _ Hread)
    as (d & df2 & p & rest & s & _ & Hp & Hs & -> & _).
  destruct (filter_head _ _ _ _ Hp) as (pre & post & Hcols & Hlike & Hpre).
  exists pre, p, post, s. repeat split; try assumption.
  - apply getcol_setcol_same.
  - eexists. apply group_keys_text.
Qed.

(** X4.  The call keeps every column of the sheet and adds at most the
    labels date, quantity, price, sales and product; a column under any
    other label reads after the call as it read before. *)
Theorem normalization_writes_five_labels (sheet df' : frame) :
  read_sales_excel sheet = Ok df' ->
  (forall c, In c (columns (normalize_headers sheet)) -> In c (columns df'))
  /\ (forall c, In c (columns df') ->
        In c (columns (normalize_headers sheet)) \/ In c written_labels)
  /\ (forall c, ~ In c written_labels ->
        getcol df' c = getcol (normalize_headers sheet) c).
Proof.
  intros Hread.
  destruct (read_sales_excel_blocks _ _ Hread)
    as (d & df2 & p & rest & s & Hfrom & _ & _ & -> & _).
  destruct (sales_from_frame _ _ Hfrom) as (Hget & _ & Hin & Hinv & _).
  unfold written_labels. split; [| split].
  - intros c Hc. apply In_columns_setcol, Hin. now apply In_columns_setcol.
  - intros c Hc. apply In_columns_setcol_inv in Hc. simpl.
    destruct Hc as [-> | Hc]; [tauto |].
    apply Hinv in Hc. destruct Hc as [Hc | Hc]; [| intuition].
    apply In_columns_setcol_inv in Hc. intuition.
  - intros c Hc. simpl in Hc.
    rewrite getcol_setcol_other by intuition.
    rewrite Hget by intuition.
    apply getcol_setcol_other. intuition.
Qed.

(** X5.  A sheet whose columns all have [n] rows normalizes to a frame
    whose columns, the written ones included, all have [n] rows: no row is
    added or dropped. *)
Theorem normalization_keeps_rows (n : nat) (sheet df' : frame) :
  rectangular n sheet ->
  read_sales_excel sheet = Ok df' ->
  rectangular n df'.
Proof.
  intros Hrect Hread.
  destruct (read_sales_excel_blocks _ _ Hread)
    as (d & df2 & p & rest & s & Hfrom & _ & Hs & -> & c & crest & cs & _ & Hcs & Hd).
  pose proof (rectangular_rename n sheet header_norm Hrect) as Hrect0.
  fold (normalize_headers sheet) in Hrect0.
  apply rectangular_setcol.
  - apply (sales_from_rectangular n _ _) in Hfrom; [assumption |].
    apply rectangular_setcol; [assumption |].
    unfold datetime_series. rewrite length_map, (to_datetime_length _ _ Hd).
    eapply rectangular_getcol; eassumption.
  - unfold astype_str. rewrite length_map.
    eapply rectangular_getcol; eassumption.
Qed.


(** X8.  [main] prints the usage line and exits exactly when it gets fewer
    than two arguments after the program name; it then reads no file. *)
Theorem main_usage (read_excel : string -> option frame) (argv : list string) :
  main read_excel argv = Usage <-> (length argv < 3)%nat.
Proof.
  destruct argv as [| a0 [| a1 [| a2 more]]]; simpl; try (split; [lia | reflexivity]).
  split; [| lia].
  destruct (read_excel a1) as [sheet |]; cbn [bind]; [| discriminate].
  destruct (read_sales_excel sheet) as [df |]; cbn [bind]; [| discriminate].
  destruct (summarize_by_product df); cbn [bind]; [| discriminate].
  destruct (summarize_by_month df "date"); cbn [bind]; discriminate.
Qed.

(** X9.  A failure before the summaries ends the run with that failure and
    without a document: when the sheet cannot be read, and when
    [read_sales_excel] fails, whichever of its errors it is. *)
Theorem main_failures (read_excel : string -> option frame)
    (prog excel_path pdf_path : string) (more : list string) :
  let argv := prog :: excel_path :: pdf_path :: more in
  (read_excel excel_path = None ->
     main read_excel argv = Failed FileError
     /\ forall path doc, main read_excel argv <> Written path doc)
  /\ (forall sheet e,
        read_excel excel_path = Some sheet ->
        read_sales_excel sheet = Raise e ->
        main read_excel argv = Failed e
        /\ forall path doc, main read_excel argv <> Written path doc).
Proof.
  intros argv. split.
  - intros Hfile.
    assert (Hmain : main read_excel argv = Failed FileError).
    { unfold argv, main. cbv zeta. rewrite Hfile. reflexivity. }
    rewrite Hmain. split; [reflexivity | discriminate].
  - intros sheet e Hfile Hread.
    assert (Hmain : main read_excel argv = Failed e).
    { unfold argv, main. cbv zeta. rewrite Hfile. cbn [bind].
      rewrite Hread. reflexivity. }
    rewrite Hmain. split; [reflexivity | discriminate].
Qed.

End Pipeline.

(* ------------------------------------------------------------------ *)
(** ** More on the summaries *)

Section KeyOrderFacts.
Context {K : Type} {kltb keqb : K -> K -> bool} {O : KeyOrder kltb keqb}.

Lemma kltb_asym (a b : K) : kltb a b = true -> kltb b a = false.
Proof.
  intros Hab. destruct (kltb b a) eqn:Hba; [| reflexivity].
  rewrite <- (kltb_irrefl a). symmetry. eapply kltb_trans; eassumption.
Qed.

Lemma kltb_cotrans (a b c : K) :
  kltb a c = true -> kltb a b = true \/ kltb b c = true.
Proof.
  intros Hac. destruct (kltb a b) eqn:Hab; [now left | right].
  destruct (keqb a b) eqn:Heq.
  - apply keqb_eq in Heq. now subst b.
  - eapply kltb_trans; [| exact Hac]. now apply kltb_total.
Qed.

(** Sorting by key a list that is sorted by key leaves its order. *)
Lemma stable_sort_keeps_sorted {V} (l : list (K * V)) :
  StronglySorted (fun a b => kltb (fst a) (fst b) = true) l ->
  StronglySorted (fun a b => kltb (fst a) (fst b) = true)
    (stable_sort (fun y x => kltb (fst y) (fst x)) l).
Proof.
  intros Hs.
  eapply StronglySorted_weaken;
    [| apply (stable_sort_sorted (fun y x => kltb (fst y) (fst x)));
       [| | exact Hs]].
  - intros a b [H | [_ H]]; exact H.
  - intros a b. apply kltb_asym.
  - intros a b c. apply kltb_cotrans.
Qed.

End KeyOrderFacts.

Lemma dropna_keys {K V} (f : K -> K) (ks : list (option K)) (vs : list V)
    (k : K) :
  In k (map fst (dropna (combine (map (option_map f) ks) vs))) ->
  exists d, In (Some d) ks /\ k = f d.
Proof.
  revert vs. induction ks as [| x ks IH]; intros [| v vs]; simpl;
    try contradiction.
  destruct x as [d |]; simpl.
  - intros [<- | H]; [exists d; auto |].
    destruct (IH _ H) as [d' [Hd' ->]]. exists d'. auto.
  - intros H. destruct (IH _ H) as [d' [Hd' ->]]. exists d'. auto.
Qed.

Lemma setcol_setcol (df : frame) (c : string) (s s' : series) :
  setcol (setcol df c s) c s' = setcol df c s'.
Proof.
  induction df as [| [c0 s0] df IH]; simpl.
  - now rewrite String.eqb_refl.
  - destruct (String.eqb c0 c) eqn:Heq; simpl.
    + now rewrite String.eqb_refl.
    + now rewrite Heq, IH.
Qed.

Lemma StronglySorted_app_inv {A} (R : A -> A -> Prop) (l1 l2 : list A) :
  StronglySorted R (l1 ++ l2)%list ->
  StronglySorted R l1 /\ StronglySorted R l2
  /\ forall a b, In a l1 -> In b l2 -> R a b.
Proof.
  induction l1 as [| x l1 IH]; simpl; intros H.
  - repeat split; [constructor | assumption | contradiction].
  - apply StronglySorted_inv in H. destruct H as [Hs Hall].
    destruct (IH Hs) as (H1 & H2 & H12).
    rewrite Forall_app in Hall. destruct Hall as [Ha1 Ha2].
    repeat split; [now constructor | assumption |].
    intros a b [<- | Ha] Hb; [| now apply H12].
    rewrite Forall_forall in Ha2. now apply Ha2.
Qed.

(** In a sorted list, whatever is in the first [n] rows stands in the
    order to whatever comes after them. *)
Lemma sorted_prefix_first {A} (R : A -> A -> Prop) (n : nat) (l : list A) :
  StronglySorted R l ->
  StronglySorted R (firstn n l)
  /\ forall a b, In a (firstn n l) -> In b (skipn n l) -> R a b.
Proof.
  intros Hs. rewrite <- (firstn_skipn n l) in Hs.
  destruct (StronglySorted_app_inv _ _ _ Hs) as (H1 & _ & H12). auto.
Qed.

Lemma StronglySorted_rev {A} (R : A -> A -> Prop) (l : list A) :
  StronglySorted R l -> StronglySorted (fun a b => R b a) (rev l).
Proof.
  induction 1 as [| x l Hs IH Hall]; simpl; [constructor |].
  assert (Happ : forall l1 l2,
            StronglySorted (fun a b => R b a) l1 ->
            StronglySorted (fun a b => R b a) l2 ->
            (forall a b, In a l1 -> In b l2 -> R b a) ->
            StronglySorted (fun a b => R b a) (l1 ++ l2)%list).
  { clear. induction l1 as [| y l1 IH1]; simpl; intros l2 H1 H2 H12;
      [assumption |].
    apply StronglySorted_inv in H1. destruct H1 as [H1 Hy].
    constructor.
    - apply IH1; auto.
    - rewrite Forall_app. split; [assumption |].
      apply Forall_forall. intros b Hb. apply H12; [now left | assumption]. }
  apply Happ; [assumption | repeat constructor |].
  intros a b Ha [<- | []]. rewrite Forall_forall in Hall.
  apply Hall. now apply in_rev.
Qed.

(** The product summary is a sorted grouping of some rows. *)
Lemma summarize_by_product_ok (df : frame) (out : product_summary) :
  summarize_by_product df = Ok out ->
  exists keys vals,
    out = sort_by_sales_desc (groupby_sum key_ltb key_eqb (combine keys vals)).
Proof.
  unfold summarize_by_product.
  destruct (lookup df "product") as [p | e]; cbn [bind]; [| discriminate].
  destruct (group_keys "product" p) as [keys | e]; cbn [bind]; [| discriminate].
  destruct (lookup df "sales") as [s | e]; cbn [bind]; [| discriminate].
  destruct (float_values "sales" s) as [vals | e]; cbn [bind]; [| discriminate].
  intros [= <-]. eauto.
Qed.

Lemma product_summary_descending (df : frame) (out : product_summary) :
  summarize_by_product df = Ok out ->
  StronglySorted (fun a b => (snd b <= snd a)%Qc) out.
Proof.
  intros H. destruct (summarize_by_product_ok _ _ H) as (keys & vals & ->).
  eapply StronglySorted_weaken;
    [| apply (sort_by_sales_desc_sorted
                (fun a b => key_ltb (fst a) (fst b) = true)),
       (groupby_sorted (kltb := key_ltb))].
  intros a b [Hlt | [Heq _]].
  - now apply Qclt_le_weak.
  - rewrite Heq. apply Qcle_refl.
Qed.

Section SummaryExtras.
Context {E : Externals}.

(** The month summary is a grouping of the dated rows, sorted once more. *)
Lemma summarize_by_month_rows (df : frame) (date_col : string) (ds s : series)
    (dates : list (option date)) (vals : list (option Qc)) :
  getcol df date_col = Some ds -> to_datetime ds = Ok dates ->
  getcol df "sales" = Some s -> float_values "sales" s = Ok vals ->
  summarize_by_month df date_col
  = Ok (setcol df "month" (datetime_series (map (option_map month_start) dates)),
        sort_by_month
          (groupby_sum date_ltb date_eqb
             (dropna (combine (map (option_map month_start) dates) vals)))).
Proof.
  intros Hd Ht Hs Hv. unfold summarize_by_month.
  rewrite (lookup_getcol _ _ _ Hd). cbn [bind]. rewrite Ht. cbn [bind].
  unfold lookup. rewrite getcol_setcol_other by discriminate. rewrite Hs.
  cbn [bind]. rewrite Hv. reflexivity.
Qed.

(** X10.  The month summary has one row per calendar month in which a row
    of the table is dated: its key is the first day of that month, its
    value the sum of the sales of the rows dated in that month; rows
    without a date belong to no month.  The months are distinct and come
    in strictly ascending order. *)
Theorem month_summary_order (df : frame) (date_col : string) (ds s : series)
    (dates : list (option date)) (vals : list (option Qc)) :
  getcol df date_col = Some ds -> to_datetime ds = Ok dates ->
  getcol df "sales" = Some s -> float_values "sales" s = Ok vals ->
  let rows := dropna (combine (map (option_map month_start) dates) vals) in
  exists df' m,
    summarize_by_month df date_col = Ok (df', m)
    /\ StronglySorted (fun a b => date_ltb (fst a) (fst b) = true) m
    /\ NoDup (map fst m)
    /\ (forall k, In k (map fst m) <-> In k (map fst rows))
    /\ (forall k, In k (map fst m) ->
          day k = 1%Z /\ exists d, In (Some d) dates /\ k = month_start d)
    /\ (forall k v, In (k, v) m -> v = group_sum date_eqb k rows).
Proof.
  intros Hd Ht Hs Hv rows.
  eexists _, _. split; [apply (summarize_by_month_rows _ _ _ _ _ _ Hd Ht Hs Hv) |].
  fold rows.
  assert (Hperm : Permutation (sort_by_month (groupby_sum date_ltb date_eqb rows))
                              (groupby_sum date_ltb date_eqb rows))
    by apply stable_sort_perm.
  assert (Hmem : forall k,
            In k (map fst (sort_by_month (groupby_sum date_ltb date_eqb rows)))
            <-> In k (map fst rows)).
  { intros k.
    rewrite <- (In_sorted_keys (kltb := date_ltb) (keqb := date_eqb) k (map fst rows)).
    rewrite <- groupby_keys.
    split; apply Permutation_in; [| symmetry]; now apply Permutation_map. }
  split; [| split; [| split; [| split]]].
  - apply (stable_sort_keeps_sorted (kltb := date_ltb) (keqb := date_eqb)).
    apply groupby_sorted.
  - apply (Permutation_NoDup (l := map fst (groupby_sum date_ltb date_eqb rows))).
    + symmetry. now apply Permutation_map.
    + rewrite groupby_keys.
      apply (sorted_NoDup (kltb := date_ltb) (keqb := date_eqb)), sorted_keys_sorted.
  - exact Hmem.
  - intros k Hk. apply Hmem in Hk. apply dropna_keys in Hk.
    destruct Hk as [d [Hin ->]]. split; [reflexivity | eauto].
  - intros k v Hin. apply (groupby_In (kltb := date_ltb)).
    now apply (Permutation_in _ Hperm).
Qed.

Lemma month_start_twice (dates : list (option date)) :
  map (option_map month_start) (map (option_map month_start) dates)
  = map (option_map month_start) dates.
Proof.
  rewrite map_map. apply map_ext. intros [d |]; reflexivity.
Qed.

(** X11.  A second call of [summarize_by_month] on the frame the first
    call has changed returns the same summary and changes the frame no
    further, whatever the date column. *)
Theorem summarize_by_month_twice (df df' : frame) (date_col : string)
    (m : month_summary) :
  summarize_by_month df date_col = Ok (df', m) ->
  summarize_by_month df' date_col = Ok (df', m).
Proof.
  intros H. pose proof H as H0. unfold summarize_by_month in H.
  destruct (lookup df date_col) as [ds | e] eqn:Hl; cbn [bind] in H;
    [| discriminate].
  destruct (to_datetime ds) as [dates | e] eqn:Ht; cbn [bind] in H;
    [| discriminate].
  set (months := map (option_map month_start) dates) in *.
  destruct (lookup (setcol df "month" (datetime_series months)) "sales")
    as [s | e] eqn:Hs; cbn [bind] in H; [| discriminate].
  destruct (float_values "sales" s) as [vals | e] eqn:Hv; cbn [bind] in H;
    [| discriminate].
  injection H as <- <-.
  unfold lookup in Hl, Hs.
  destruct (getcol df date_col) as [ds' |] eqn:Hg; [| discriminate].
  injection Hl as ->.
  destruct (getcol (setcol df "month" (datetime_series months)) "sales")
    as [s' |] eqn:Hg2; [| discriminate].
  injection Hs as ->.
  destruct (String.eqb "month" date_col) eqn:Hc.
  - apply String.eqb_eq in Hc. subst date_col.
    rewrite (summarize_by_month_rows _ "month" (datetime_series months) s
               months vals).
    + rewrite setcol_setcol. unfold months. rewrite month_start_twice.
      reflexivity.
    + apply getcol_setcol_same.
    + apply to_datetime_datetime_series.
    + assumption.
    + assumption.
  - apply String.eqb_neq in Hc.
    rewrite (summarize_by_month_rows _ date_col ds s dates vals).
    + now rewrite setcol_setcol.
    + now rewrite getcol_setcol_other.
    + assumption.
    + assumption.
    + assumption.
Qed.

(** X12.  A summary of a frame that lacks a column it reads fails with the
    error of the missing label: 'product' for the product summary, the
    given date column for the month summary; without 'sales' neither
    summary is produced. *)
Theorem summaries_missing_column (df : frame) (date_col : string) :
  (getcol df "product" = None ->
     summarize_by_product df = Raise (KeyError "product"))
  /\ (getcol df date_col = None ->
        summarize_by_month df date_col = Raise (KeyError date_col))
  /\ (getcol df "sales" = None ->
        (exists e, summarize_by_product df = Raise e)
        /\ exists e, summarize_by_month df date_col = Raise e).
Proof.
  split; [| split].
  - intros H. unfold summarize_by_product, lookup. now rewrite H.
  - intros H. unfold summarize_by_month, lookup. now rewrite H.
  - intros H. split.
    + unfold summarize_by_product.
      destruct (lookup df "product") as [p | e]; cbn [bind]; [| eauto].
      destruct (group_keys "product" p) as [keys | e]; cbn [bind]; [| eauto].
      unfold lookup. rewrite H. cbn [bind]. eauto.
    + unfold summarize_by_month.
      destruct (lookup df date_col) as [ds | e]; cbn [bind]; [| eauto].
      destruct (to_datetime ds) as [dates | e]; cbn [bind]; [| eauto].
      unfold lookup. rewrite getcol_setcol_other by discriminate.
      rewrite H. cbn [bind]. eauto.
Qed.

End SummaryExtras.

(** X13.  The product summary never has more rows than the table, and it
    is empty exactly when the table has no rows. *)
Theorem product_summary_size (df : frame) (p s : series)
    (keys : list (option string)) (vals : list (option Qc)) :
  getcol df "product" = Some p -> group_keys "product" p = Ok keys ->
  getcol df "sales" = Some s -> float_values "sales" s = Ok vals ->
  exists out,
    summarize_by_product df = Ok out
    /\ (length out <= length (combine keys vals))%nat
    /\ (out = [] <-> combine keys vals = []).
Proof.
  intros Hp Hk Hs Hv.
  destruct (product_summary_rows df p s keys vals Hp Hk Hs Hv) as [Hout _].
  set (rows := combine keys vals) in *.
  set (grp := groupby_sum key_ltb key_eqb rows) in *.
  exists (sort_by_sales_desc grp). split; [exact Hout |].
  assert (Hperm : Permutation (sort_by_sales_desc grp) grp)
    by apply stable_sort_perm.
  assert (Hlen : length (sort_by_sales_desc grp)
                 = length (sorted_keys key_ltb key_eqb (map fst rows))).
  { rewrite (Permutation_length Hperm). unfold grp.
    rewrite <- (groupby_keys (kltb := key_ltb)). now rewrite length_map. }
  split.
  - rewrite Hlen, <- (length_map fst rows).
    apply NoDup_incl_length.
    + apply (sorted_NoDup (kltb := key_ltb) (keqb := key_eqb)), sorted_keys_sorted.
    + intros k Hk'. now apply (In_sorted_keys (kltb := key_ltb) (keqb := key_eqb)).
  - split.
    + intros Hnil. destruct rows as [| r rows'] eqn:Hrows; [reflexivity |].
      exfalso. rewrite Hnil in Hlen. simpl length in Hlen at 1.
      assert (Hin : In (fst r) (sorted_keys key_ltb key_eqb (map fst (r :: rows'))))
        by (apply (In_sorted_keys (kltb := key_ltb) (keqb := key_eqb)); now left).
      destruct (sorted_keys key_ltb key_eqb (map fst (r :: rows')));
        [contradiction | discriminate].
    + intros Hnil. unfold grp. rewrite Hnil. reflexivity.
Qed.

(** X15.  The report of a product summary: the table holds the first 20
    rows of the summary, or all of them if there are fewer, in descending
    order of sales, and no product left out of the table sells more than
    one in it; the count and the total printed above it are those of all
    products, in the table or not. *)
Theorem report_table_of_summary (df : frame) (out : product_summary)
    (m : month_summary) (chart : bar_chart) (monthly : month_summary)
    (title subtitle : string) :
  summarize_by_product df = Ok out ->
  let doc := create_pdf_report out m chart monthly title subtitle in
  length (doc_product_table doc) = Nat.min 20 (length out)
  /\ (doc_product_table doc ++ skipn 20 out)%list = out
  /\ StronglySorted (fun a b => (snd b <= snd a)%Qc) (doc_product_table doc)
  /\ (forall a b, In a (doc_product_table doc) -> In b (skipn 20 out) ->
        (snd b <= snd a)%Qc)
  /\ doc_total_products doc = length out
  /\ doc_total_sales doc = total out
  /\ doc_month_table doc = m.
Proof.
  intros Hout doc.
  pose proof (product_summary_descending _ _ Hout) as Hdesc.
  destruct (sorted_prefix_first _ 20 out Hdesc) as [Hfirst Hdom].
  unfold doc, create_pdf_report. cbn [doc_product_table doc_total_products
    doc_total_sales doc_month_table].
  repeat split; try assumption.
  - apply length_firstn.
  - apply firstn_skipn.
Qed.


(* ------------------------------------------------------------------ *)
(** ** The added properties on concrete sheets *)

(** X1 on [no_product_sheet]. *)
Lemma missing_product_column_is_last_check_witness :
  read_sales_excel no_product_sheet = Raise NoProductColumn.
Proof.
  apply (proj2 (missing_product_column_is_last_check no_product_sheet)).
  split; [| reflexivity].
  eexists _, _. split; reflexivity.
Defined.

(** X2 on [dates_only_sheet], which fails at line 72. *)
Lemma normalization_failures_witness :
  let df := normalize_headers dates_only_sheet in
  filter is_date_like (columns df) <> []
  /\ ~ In "sales" (columns df) /\ ~ In "valor" (columns df)
  /\ (filter is_qty_like (columns df) = []
      \/ filter is_price_like (columns df) = [])
  /\ filter is_other_total (columns df) = [].
Proof.
  apply (proj2 (normalization_failures dates_only_sheet)).
  reflexivity.
Defined.

(** X3 on [codes_sheet]: the label 'item'. *)
Lemma product_column_is_text_witness :
  exists pre p post s,
    columns (normalize_headers codes_sheet) = (pre ++ p :: post)%list
    /\ is_product_like p = true
    /\ (forall c, In c pre -> is_product_like c = false)
    /\ getcol (normalize_headers codes_sheet) p = Some s
    /\ getcol (normalized codes_sheet) "product" = Some (astype_str s)
    /\ exists keys, group_keys "product" (astype_str s) = Ok keys.
Proof.
  apply (product_column_is_text codes_sheet (normalized codes_sheet)).
  reflexivity.
Defined.

Example codes_products :
  getcol (normalized codes_sheet) "product"
  = Some [Text "Meia"; Text "nan"; Text "42"].
Proof. reflexivity. Qed.

(** X4 on [codes_sheet]: the column 'note' is as it was. *)
Lemma normalization_writes_five_labels_witness :
  getcol (normalized codes_sheet) "note"
  = getcol (normalize_headers codes_sheet) "note".
Proof.
  assert (Hread : read_sales_excel codes_sheet = Ok (normalized codes_sheet))
    by reflexivity.
  apply (normalization_writes_five_labels codes_sheet (normalized codes_sheet) Hread).
  unfold written_labels. simpl. intuition discriminate.
Defined.

(** X5 on [codes_sheet], three rows. *)
Lemma normalization_keeps_rows_witness :
  rectangular 3 (normalized codes_sheet).
Proof.
  apply (normalization_keeps_rows 3 codes_sheet (normalized codes_sheet)).
  - repeat constructor.
  - reflexivity.
Defined.


(** X8 with one argument only. *)
Lemma main_usage_witness :
  main (fun _ => Some codes_sheet) ["sales_report.py"; "vendas.xlsx"] = Usage.
Proof.
  apply (proj2 (main_usage (fun _ => Some codes_sheet)
                  ["sales_report.py"; "vendas.xlsx"])).
  simpl. lia.
Defined.

(** X9 with a file that cannot be read. *)
Lemma main_failures_witness :
  main (fun _ => None) ["sales_report.py"; "vendas.xlsx"; "relatorio.pdf"]
  = Failed FileError
  /\ forall path doc,
       main (fun _ => None) ["sales_report.py"; "vendas.xlsx"; "relatorio.pdf"]
       <> Written path doc.
Proof.
  apply (proj1 (main_failures (fun _ => None) "sales_report.py" "vendas.xlsx"
                  "relatorio.pdf" [])).
  reflexivity.
Defined.

(** X10 on the frame of [undated_sheet]: one month, January 2025. *)
Lemma month_summary_order_witness :
  exists df' m,
    summarize_by_month (normalized undated_sheet) "date" = Ok (df', m)
    /\ NoDup (map fst m)
    /\ (forall k, In k (map fst m) <-> In k [mkdate 2025 1 1]).
Proof.
  destruct (month_summary_order (normalized undated_sheet) "date"
              [Date jan5; NA] [Number (qc 10 1); Number (qc 5 1)]
              [Some jan5; None] [Some (qc 10 1); Some (qc 5 1)]
              eq_refl eq_refl eq_refl eq_refl)
    as (df' & m & Hm & _ & Hnd & Hmem & _).
  exists df', m. repeat split; try assumption; apply Hmem.
Defined.

(** X11 on the frame of [tie_sheet]. *)
Lemma summarize_by_month_twice_witness :
  summarize_by_month (fst (months_of tie_sheet)) "date"
  = Ok (fst (months_of tie_sheet), snd (months_of tie_sheet)).
Proof.
  apply (summarize_by_month_twice (normalized tie_sheet)).
  reflexivity.
Defined.

(** X12 on the raw [no_product_sheet]. *)
Lemma summaries_missing_column_witness :
  summarize_by_product no_product_sheet = Raise (KeyError "product")
  /\ summarize_by_month no_product_sheet "data" = Raise (KeyError "data").
Proof.
  destruct (summaries_missing_column no_product_sheet "data") as (H1 & H2 & _).
  split; [apply H1 | apply H2]; reflexivity.
Defined.

(** X13 on the frame of [tie_sheet]. *)
Lemma product_summary_size_witness :
  exists out,
    summarize_by_product (normalized tie_sheet) = Ok out
    /\ (length out <= 2)%nat
    /\ (out = [] <->
        combine [Some "Tenis"; Some "Bermuda"] [Some (qc 10 1); Some (qc 10 1)]
        = []).
Proof.
  apply (product_summary_size (normalized tie_sheet)
           [Text "Tenis"; Text "Bermuda"]
           [Number (qc 10 1); Number (qc 10 1)]
           [Some "Tenis"; Some "Bermuda"]
           [Some (qc 10 1); Some (qc 10 1)]); reflexivity.
Defined.

(** X15 on the summary of [codes_sheet]. *)
Lemma report_table_of_summary_witness :
  length (doc_product_table
            (create_pdf_report (products_of codes_sheet) [] 
               (plot_top_products (products_of codes_sheet) 10) []
               "t" "s"))
  = Nat.min 20 (length (products_of codes_sheet)).
Proof.
  apply (report_table_of_summary (normalized codes_sheet)
           (products_of codes_sheet) []
           (plot_top_products (products_of codes_sheet) 10) [] "t" "s").
  reflexivity.
Defined.

